(** * Transit-gateway hub topology: a shallow embedding of the CDK program

    The repository declares a hub-and-spoke network with the AWS CDK: every
    [new X(scope, id, props)] registers a construct under [scope] and later
    statements mutate it ([addDependsOn]).  The embedding keeps that shape:
    the construct tree is an explicit state, constructors are computations in
    a state-and-exception monad, and the classes of
    [lib/simulated-on-prem.ts], [lib/base-network-stack.ts],
    [lib/transit-gateway-routes.ts] and the program [bin/tgw-on-prem-demo.ts]
    are transcribed statement by statement.

    Behaviour of the construct library that the program relies on and that
    the model makes explicit:
    - [Node.addChild] raises when the scope already has a child of that name;
    - an L1 resource constructor first registers the construct and then
      checks its required properties ([requireProperty]);
    - a JavaScript exception leaves the mutations done so far in place;
    - L2 constructs (Vpc, SecurityGroup, Instance, ...) are recorded as one
      node each; a Vpc yields one subnet per availability zone and per
      subnet-configuration entry;
    - [uuidv4()] is a read from a source of identifiers that the run does
      not control.

    The contents of [params.json] are a parameter of the program.  A
    construct is identified by its path of identifiers as the program writes
    them; the logical identifiers that synthesis derives from the paths are
    not modelled. *)

From Stdlib Require Import String Ascii List ZArith Bool Arith Lia.
Import ListNotations.
Open Scope string_scope.

(** ** Strings *)

Module Str.

(** [is_suffix a c]: [a] is a suffix of [c]. *)
Fixpoint is_suffix (a c : string) : bool :=
  (a =? c) ||
  match c with
  | EmptyString => false
  | String _ c' => is_suffix a c'
  end.

End Str.

(** ** Construct paths, tokens and property values *)

(** A construct is named by the identifiers from the App root down to it. *)
Definition path := list string.

Fixpoint path_eqb (p q : path) : bool :=
  match p, q with
  | [], [] => true
  | x :: p', y :: q' => (x =? y) && path_eqb p' q'
  | _, _ => false
  end.

(** Scalar values as the program handles them: literal strings, and the
    deploy-time tokens [x.ref] and [Fn.getAtt(x, attr)]. *)
Inductive token : Type :=
| Lit (s : string)
| Ref (p : path)
| GetAtt (p : path) (attr : string).

Definition token_eqb (a b : token) : bool :=
  match a, b with
  | Lit s, Lit t => s =? t
  | Ref p, Ref q => path_eqb p q
  | GetAtt p x, GetAtt q y => path_eqb p q && (x =? y)
  | _, _ => false
  end.

Inductive value : Type :=
| VTok (t : token)
| VNum (n : Z)
| VBool (b : bool)
| VToks (l : list token).

(** ** The construct tree *)

Record CfnResourceNode : Type := mkCfn {
  cfnType : string;
  cfnProperties : list (string * value);
  cfnTags : list (string * string);
  cfnDependsOn : list path
}.

Record CfnOutputProps : Type := mkOutput {
  description : string;
  exportName : option string;
  outputValue : token
}.

Inductive construct : Type :=
| CStack (stackDescription : option string) (region : option string)
| CConstruct
| CL2 (kind : string)
| CResource (r : CfnResourceNode)
| COutput (o : CfnOutputProps).

(** ** The construction monad *)

Inductive Error : Type :=
| AlreadyExists (scope : path) (id : string)
| MissingRequired (resource : path) (prop : string)
| TypeError (what : string).

Inductive result (A : Type) : Type :=
| Ok (a : A)
| Throw (e : Error).
Arguments Ok {A} a.
Arguments Throw {A} e.

(** What a run reads but never writes: the availability zones a stack
    resolves to, and the outcomes of the successive [uuidv4()] calls. *)
Record Env : Type := mkEnv {
  availabilityZones : list string;
  uuidv4_source : nat -> string
}.

(** Constructs in creation order, and the number of identifiers drawn. *)
Record State : Type := mkState {
  tree : list (path * construct);
  drawn : nat
}.

Definition M (A : Type) : Type := Env -> State -> result A * State.

Definition ret {A} (a : A) : M A := fun _ s => (Ok a, s).

Definition bind {A B} (m : M A) (k : A -> M B) : M B :=
  fun env s =>
    match m env s with
    | (Ok a, s') => k a env s'
    | (Throw e, s') => (Throw e, s')
    end.

Definition throw {A} (e : Error) : M A := fun _ s => (Throw e, s).

Declare Scope cdk_scope.
Delimit Scope cdk_scope with cdk.
Notation "x <- m ;; k" := (bind m (fun x => k))
  (at level 61, m at next level, right associativity) : cdk_scope.
Notation "m ;;; k" := (bind m (fun _ => k))
  (at level 61, right associativity) : cdk_scope.
Open Scope cdk_scope.

(** [for (var x of l) { body }] *)
Fixpoint forOf {A} (l : list A) (body : A -> M unit) : M unit :=
  match l with
  | [] => ret tt
  | x :: l' => body x ;;; forOf l' body
  end.

(** [x!.member]: the non-null assertion is erased by the compiler, so the
    member access on [undefined] raises at run time. *)
Definition deref {A} (what : string) (x : option A) : M A :=
  match x with
  | Some a => ret a
  | None => throw (TypeError what)
  end.

(** [s!.concat(t).toString()] *)
Definition concat (s : option string) (t : string) : M string :=
  p <- deref "concat" s ;; ret (p ++ t).

Definition uuidv4 : M string :=
  fun env s => (Ok (uuidv4_source env (drawn s)),
                mkState (tree s) (S (drawn s))).

Definition stackAvailabilityZones : M (list string) :=
  fun env s => (Ok (availabilityZones env), s).

Definition child (scope : path) (id : string) : path := (scope ++ [id])%list.

Definition has_path (p : path) (t : list (path * construct)) : bool :=
  existsb (path_eqb p) (map fst t).

(** [Node.addChild]: a second child of the same name in a scope is refused. *)
Definition Node_addChild (scope : path) (id : string) (c : construct) : M path :=
  fun _ s =>
    let p := child scope id in
    if has_path p (tree s)
    then (Throw (AlreadyExists scope id), s)
    else (Ok p, mkState (tree s ++ [(p, c)])%list (drawn s)).

Definition lookupProp {A} (name : string) (props : list (string * A)) : option A :=
  option_map snd (find (fun kv => fst kv =? name) props).

Fixpoint definedProps (props : list (string * option value)) : list (string * value) :=
  match props with
  | [] => []
  | (k, Some v) :: rest => (k, v) :: definedProps rest
  | (_, None) :: rest => definedProps rest
  end.

Definition requireProperty (res : path) (props : list (string * option value))
    (name : string) : M unit :=
  match lookupProp name props with
  | Some (Some _) => ret tt
  | _ => throw (MissingRequired res name)
  end.

(** The common shape of the generated L1 constructors. *)
Definition newCfnResource (scope : path) (id : string) (type : string)
    (props : list (string * option value)) (tags : list (string * string))
    (required : list string) : M path :=
  this <- Node_addChild scope id
            (CResource (mkCfn type (definedProps props) tags [])) ;;
  forOf required (requireProperty this props) ;;;
  ret this.

Definition addDep (res target : path) (e : path * construct) : path * construct :=
  match e with
  | (p, CResource r) =>
      if path_eqb p res
      then (p, CResource (mkCfn (cfnType r) (cfnProperties r) (cfnTags r)
                                (cfnDependsOn r ++ [target])%list))
      else e
  | _ => e
  end.

(** [res.addDependsOn(target)] *)
Definition addDependsOn (res target : path) : M unit :=
  fun _ s => (Ok tt, mkState (map (addDep res target) (tree s)) (drawn s)).

Definition newStack (scope : path) (id : string) (descr region : option string) : M path :=
  Node_addChild scope id (CStack descr region).

Definition newConstruct (scope : path) (id : string) : M path :=
  Node_addChild scope id CConstruct.

Definition newL2 (kind : string) (scope : path) (id : string) : M path :=
  Node_addChild scope id (CL2 kind).

Definition CfnOutput (scope : path) (id : string) (o : CfnOutputProps) : M path :=
  Node_addChild scope id (COutput o).

(** [new App()] *)
Definition newApp : State := mkState [] 0.

(** ** The construct library: L1 resources *)

Definition str (s : string) : option value := Some (VTok (Lit s)).
Definition tok (t : token) : option value := Some (VTok t).
Definition num (n : option Z) : option value := option_map VNum n.

Definition TransitGatewayT := "AWS::EC2::TransitGateway".
Definition CustomerGatewayT := "AWS::EC2::CustomerGateway".
Definition VPNConnectionT := "AWS::EC2::VPNConnection".
Definition RouteT := "AWS::EC2::Route".
Definition EIPT := "AWS::EC2::EIP".
Definition TransitGatewayRouteTableT := "AWS::EC2::TransitGatewayRouteTable".
Definition TransitGatewayAttachmentT := "AWS::EC2::TransitGatewayAttachment".
Definition AssociationT := "AWS::EC2::TransitGatewayRouteTableAssociation".
Definition PropagationT := "AWS::EC2::TransitGatewayRouteTablePropagation".

Definition CfnEIP (scope : path) (id : string) : M path :=
  newCfnResource scope id EIPT [] [] [].

Definition CfnTransitGateway scope id props tags : M path :=
  newCfnResource scope id TransitGatewayT props tags [].

Definition CfnCustomerGateway scope id props tags : M path :=
  newCfnResource scope id CustomerGatewayT props tags
    ["bgpAsn"; "ipAddress"; "type"].

Definition CfnVPNConnection scope id props tags : M path :=
  newCfnResource scope id VPNConnectionT props tags
    ["customerGatewayId"; "type"].

Definition CfnRoute scope id props : M path :=
  newCfnResource scope id RouteT props [] ["routeTableId"].

Definition CfnTransitGatewayRouteTable scope id props tags : M path :=
  newCfnResource scope id TransitGatewayRouteTableT props tags
    ["transitGatewayId"].

Definition CfnTransitGatewayAttachment scope id props tags : M path :=
  newCfnResource scope id TransitGatewayAttachmentT props tags
    ["subnetIds"; "transitGatewayId"; "vpcId"].

Definition CfnTransitGatewayRouteTableAssociation scope id props : M path :=
  newCfnResource scope id AssociationT props []
    ["transitGatewayAttachmentId"; "transitGatewayRouteTableId"].

Definition CfnTransitGatewayRouteTablePropagation scope id props : M path :=
  newCfnResource scope id PropagationT props []
    ["transitGatewayAttachmentId"; "transitGatewayRouteTableId"].

(** ** The construct library: Vpc *)

Inductive SubnetType : Type := PUBLIC | PRIVATE_ISOLATED.

Definition SubnetType_eqb (a b : SubnetType) : bool :=
  match a, b with
  | PUBLIC, PUBLIC | PRIVATE_ISOLATED, PRIVATE_ISOLATED => true
  | _, _ => false
  end.

Module SubnetConfiguration.
Record t : Type := mk {
  cidrMask : option Z;
  name : string;
  subnetType : SubnetType
}.
End SubnetConfiguration.

Module Subnet.
Record t : Type := mk {
  subnetId : token;
  routeTableId : token;      (* subnet.routeTable.routeTableId *)
  subnetType : SubnetType
}.
End Subnet.

Module Vpc.
Record t : Type := mk {
  node : path;
  vpcId : token;
  vpcCidrBlock : token;
  publicSubnets : list Subnet.t;
  isolatedSubnets : list Subnet.t
}.
End Vpc.

Definition digit (n : nat) : string :=
  match n with
  | 0 => "0" | 1 => "1" | 2 => "2" | 3 => "3" | 4 => "4"
  | 5 => "5" | 6 => "6" | 7 => "7" | 8 => "8" | _ => "9"
  end.

Fixpoint decimal (fuel n : nat) : string :=
  match fuel with
  | 0 => digit n
  | S fuel' =>
      if (n <? 10)%nat then digit n
      else decimal fuel' (n / 10)%nat ++ digit (n mod 10)%nat
  end.

(** [`${name}Subnet${index + 1}`], the construct a Vpc creates for the
    subnet of configuration entry [cfg] in the [index]-th zone. *)
Definition vpcSubnet (vpc : path) (cfg : SubnetConfiguration.t) (index : nat) : Subnet.t :=
  let sub := child vpc (SubnetConfiguration.name cfg ++ "Subnet" ++ decimal index index) in
  Subnet.mk (Ref (child sub "Subnet")) (Ref (child sub "RouteTable"))
            (SubnetConfiguration.subnetType cfg).

Definition subnetsOfType (ty : SubnetType) (l : list Subnet.t) : list Subnet.t :=
  filter (fun s => SubnetType_eqb (Subnet.subnetType s) ty) l.

(** [new aws_ec2.Vpc(scope, id, { vpcName, cidr, maxAzs, subnetConfiguration })] *)
Definition newVpc (scope : path) (id : string) (vpcName : string)
    (cidr : option string) (maxAzs : nat)
    (subnetConfiguration : list SubnetConfiguration.t) : M Vpc.t :=
  this <- newL2 "Vpc" scope id ;;
  zones <- stackAvailabilityZones ;;
  let azs := firstn maxAzs zones in
  let subnets :=
    flat_map (fun cfg => map (vpcSubnet this cfg) (seq 1 (List.length azs)))
             subnetConfiguration in
  ret (Vpc.mk this (Ref (child this "Resource"))
              (GetAtt (child this "Resource") "CidrBlock")
              (subnetsOfType PUBLIC subnets)
              (subnetsOfType PRIVATE_ISOLATED subnets)).

Module StackProps.
Record t : Type := mk {
  region : option string;          (* env.region *)
  description : option string
}.
End StackProps.

Definition Stack (scope : path) (id : string) (props : StackProps.t) : M path :=
  newStack scope id (StackProps.description props) (StackProps.region props).

(** ** lib/simulated-on-prem.ts *)

Module SimulatedOnPremProps.
Record t : Type := mk {
  prefix : option string;
  cidr : option string;
  cidrMask : option Z;
  ec2Role : path
}.
End SimulatedOnPremProps.

Module SimulatedOnPremObj.
Record t : Type := mk { eip : path; vpc : Vpc.t }.
End SimulatedOnPremObj.

Definition SimulatedOnPrem (scope : path) (id : string)
    (props : SimulatedOnPremProps.t) : M SimulatedOnPremObj.t :=
  this <- newConstruct scope id ;;
  (* elastic ip *)
  eip <- CfnEIP this "onPremEip" ;;
  let allocationId := GetAtt eip "AllocationId" in
  (* create a vpc with public subnet *)
  vpcId <- concat (SimulatedOnPremProps.prefix props) "-VPC" ;;
  vpcName <- concat (SimulatedOnPremProps.prefix props) "-VPC" ;;
  subnetName <- concat (SimulatedOnPremProps.prefix props) "-VPC | Public" ;;
  vpc <- newVpc this vpcId vpcName (SimulatedOnPremProps.cidr props) 1
           [SubnetConfiguration.mk (SimulatedOnPremProps.cidrMask props)
                                   subnetName PUBLIC] ;;
  (* security group for ec2; its ingress rules add no construct *)
  sg <- newL2 "SecurityGroup" this "SecurityGroupForEc2OpenSwan" ;;
  (* ec2 instance *)
  ec2 <- newL2 "Instance" this "OnPremEc2" ;;
  (* output *)
  CfnOutput this "eipAllocationId"
    (mkOutput "EIP allocation ID" (Some "eipAllocationId") allocationId) ;;;
  CfnOutput this "eipAddress" (mkOutput "eip address" None (Ref eip)) ;;;
  CfnOutput this "onPremVpcId"
    (mkOutput "on prem vpc id" None (Vpc.vpcId vpc)) ;;;
  ret (SimulatedOnPremObj.mk eip vpc).

(** ** lib/base-network-stack.ts *)

(** The entries of [params.json], which the program reads through
    [cfnParams[region].Key] and [cfnParams["OnPremPublicIp"]]. *)
Module RegionParams.
Record t : Type := mk {
  DevelopmentCidr : option string;
  ProductionCidr : option string;
  OnPremCidr : option string;
  CidrMask : option Z;
  AmazonSideAsn : option Z;
  CustomerSideAsn : option Z
}.
End RegionParams.

Module Params.
Record t : Type := mk {
  regions : list (string * RegionParams.t);
  OnPremPublicIp : option string
}.
End Params.

(** [cfnParams[region]], to be dereferenced by a member access. *)
Definition regionParams (cfnParams : Params.t) (region : option string)
    : M RegionParams.t :=
  deref "cfnParams[region]"
    (match region with
     | Some r => lookupProp r (Params.regions cfnParams)
     | None => None
     end).

Module VpcWithEc2Props.
Record t : Type := mk {
  prefix : option string;
  cidr : option string;
  cidrMask : option Z;
  transitGateway : option path;
  ec2Role : option path
}.
End VpcWithEc2Props.

Module VpcWithEc2Obj.
Record t : Type := mk {
  vpc : Vpc.t;
  securityGroup : path;
  subnetIds : list token
}.
End VpcWithEc2Obj.

Definition VpcWithEc2 (scope : path) (id : string) (props : VpcWithEc2Props.t)
    : M VpcWithEc2Obj.t :=
  let prefix := VpcWithEc2Props.prefix props in
  this <- newConstruct scope id ;;
  (* vpc with isolated subnet *)
  vpcId <- concat prefix "-VPC" ;;
  vpcName <- concat prefix "-VPC" ;;
  subnetName <- concat prefix "-VPC | ISOLATED" ;;
  vpc <- newVpc this vpcId vpcName (VpcWithEc2Props.cidr props) 1
           [SubnetConfiguration.mk (VpcWithEc2Props.cidrMask props)
                                   subnetName PRIVATE_ISOLATED] ;;
  (* populate subnets ids *)
  let subnetIds := map Subnet.subnetId (Vpc.isolatedSubnets vpc) in
  (* security group for ec2; the inbound ICMP rule adds no construct *)
  sgId <- concat prefix "-SG" ;;
  securityGroup <- newL2 "SecurityGroup" this sgId ;;
  (* vpc endpoints ssm (3 needed) *)
  ssmId <- concat prefix "-SSM" ;;
  newL2 "InterfaceVpcEndpoint" this ssmId ;;;
  ssmMessagesId <- concat prefix "-SSM-MESSAGES" ;;
  newL2 "InterfaceVpcEndpoint" this ssmMessagesId ;;;
  ec2MessagesId <- concat prefix "-EC2-MESSAGES" ;;
  newL2 "InterfaceVpcEndpoint" this ec2MessagesId ;;;
  (* create ec2 *)
  instanceId <- concat prefix "-Instance" ;;
  ec2 <- newL2 "Instance" this instanceId ;;
  (* output vpcid *)
  outputId <- concat prefix "-VPCId" ;;
  exportId <- concat prefix "VPCId" ;;
  CfnOutput this outputId
    (mkOutput "VPCId for the evironemt" (Some exportId) (Vpc.vpcId vpc)) ;;;
  ret (VpcWithEc2Obj.mk vpc securityGroup subnetIds).

Module BaseNetworkStackObj.
Record t : Type := mk {
  developmentVpc : VpcWithEc2Obj.t;
  productionVpc : VpcWithEc2Obj.t;
  ec2Role : path
}.
End BaseNetworkStackObj.

Definition BaseNetworkStack (cfnParams : Params.t) (scope : path) (id : string)
    (props : StackProps.t) : M BaseNetworkStackObj.t :=
  this <- Stack scope id props ;;
  let region := StackProps.region props in
  (* ec2 role *)
  ec2Role <- newL2 "Role" this "svcRoleForEc2ViaSsm" ;;
  (* vpc-ec2 for dev development *)
  r1 <- regionParams cfnParams region ;;
  r2 <- regionParams cfnParams region ;;
  developmentVpc <-
    VpcWithEc2 this "Development"
      (VpcWithEc2Props.mk (Some "Development") (RegionParams.DevelopmentCidr r1)
                          (RegionParams.CidrMask r2) None (Some ec2Role)) ;;
  (* vpc-ec2 prod department *)
  r3 <- regionParams cfnParams region ;;
  r4 <- regionParams cfnParams region ;;
  productionVpc <-
    VpcWithEc2 this "Production"
      (VpcWithEc2Props.mk (Some "Production") (RegionParams.ProductionCidr r3)
                          (RegionParams.CidrMask r4) None (Some ec2Role)) ;;
  (* vpc-ec2 simulated on-prem place holder *)
  r5 <- regionParams cfnParams region ;;
  r6 <- regionParams cfnParams region ;;
  SimulatedOnPrem this "OnPrem"
    (SimulatedOnPremProps.mk (Some "OnPrem") (RegionParams.OnPremCidr r5)
                             (RegionParams.CidrMask r6) ec2Role) ;;;
  ret (BaseNetworkStackObj.mk developmentVpc productionVpc ec2Role).

(** ** lib/transit-gateway-routes.ts *)

(** *** Transit Gateway *)

Module GatewayProps.
Record t : Type := mk {
  prefix : option string;
  amazonSideAsn : option Z;
  onPremIpAddress : option string;
  customerSideAsn : option Z;
  stackProps : StackProps.t
}.
End GatewayProps.

Module GatewayObj.
Record t : Type := mk {
  stack : path;
  cfnTransitGateway : path;
  cfnCustomerGateway : path;
  cfnVPNConnection : path
}.
End GatewayObj.

Definition Gateway (scope : path) (id : string) (props : GatewayProps.t)
    : M GatewayObj.t :=
  let prefix := GatewayProps.prefix props in
  this <- Stack scope id (GatewayProps.stackProps props) ;;
  (* create an TGW *)
  tgwId <- concat prefix "-TGW" ;;
  tgwName <- concat prefix "-TGW" ;;
  cfnTransitGateway <-
    CfnTransitGateway this tgwId
      [ ("amazonSideAsn", num (GatewayProps.amazonSideAsn props));
        ("description", str "TGW for hybrid networking");
        ("autoAcceptSharedAttachments", str "enable");
        ("defaultRouteTableAssociation", str "disable");
        ("defaultRouteTablePropagation", str "disable");
        ("dnsSupport", str "enable");
        ("vpnEcmpSupport", str "enable");
        ("multicastSupport", str "enable") ]
      [ ("Name", tgwName) ] ;;
  (* create a customer gateway *)
  cgwId <- concat prefix "-CGW" ;;
  cgwName <- concat prefix "-CGW" ;;
  cfnCustomerGateway <-
    CfnCustomerGateway this cgwId
      [ ("bgpAsn", num (GatewayProps.customerSideAsn props));
        ("ipAddress",
         option_map (fun ip => VTok (Lit ip)) (GatewayProps.onPremIpAddress props));
        ("type", str "ipsec.1") ]
      [ ("Name", cgwName) ] ;;
  (* create the site-to-site VPN connection *)
  vpnId <- concat prefix "-VPN" ;;
  vpnName <- concat prefix "-VPN" ;;
  cfnVPNConnection <-
    CfnVPNConnection this vpnId
      [ ("transitGatewayId", tok (Ref cfnTransitGateway));
        ("customerGatewayId", tok (Ref cfnCustomerGateway));
        ("staticRoutesOnly", Some (VBool false));
        ("type", str "ipsec.1") ]
      [ ("Name", vpnName) ] ;;
  (* outputs *)
  CfnOutput this "transitGatewayId"
    (mkOutput "Transit Gateway ID" (Some "TransitGatewayId")
              (Ref cfnTransitGateway)) ;;;
  CfnOutput this "customerGatewayId"
    (mkOutput "Customer Gateway ID" (Some "CustomerGatewayId")
              (Ref cfnCustomerGateway)) ;;;
  CfnOutput this "vpnConnectionId"
    (mkOutput "VPN Connection ID" (Some "VPNConnectionId")
              (Ref cfnVPNConnection)) ;;;
  ret (GatewayObj.mk this cfnTransitGateway cfnCustomerGateway cfnVPNConnection).

(** *** vpc subnet routing *)

Module SubnetRoutingProps.
Record t : Type := mk {
  prefix : option string;
  vpc : option Vpc.t;
  transitGateway : option path
}.
End SubnetRoutingProps.

(** One iteration of the loop of [SubnetRouting]. *)
Definition SubnetRouting_body (this : path) (props : SubnetRoutingProps.t)
    (subnet : Subnet.t) : M unit :=
  p <- deref "concat" (SubnetRoutingProps.prefix props) ;;
  u <- uuidv4 ;;
  let routeId := (p ++ u) ++ "-tgw-route" in
  tgw <- deref "ref" (SubnetRoutingProps.transitGateway props) ;;
  route <-
    CfnRoute this routeId
      [ ("destinationCidrBlock", str "0.0.0.0/0");
        ("routeTableId", tok (Subnet.routeTableId subnet));
        ("transitGatewayId", tok (Ref tgw)) ] ;;
  addDependsOn route tgw.

Definition SubnetRouting (scope : path) (id : string)
    (props : SubnetRoutingProps.t) : M path :=
  this <- newConstruct scope id ;;
  (* add routing to vpc subnets *)
  vpc <- deref "isolatedSubnets" (SubnetRoutingProps.vpc props) ;;
  forOf (Vpc.isolatedSubnets vpc) (SubnetRouting_body this props) ;;;
  ret this.

(** *** tgw routes & attachment *)

Module TgwRouteAttachmentProps.
Record t : Type := mk {
  prefix : string;
  transitGateway : path;
  developmentVpc : Vpc.t;
  productionVpc : Vpc.t;
  stackProps : StackProps.t
}.
End TgwRouteAttachmentProps.

Module TgwRouteAttachmentObj.
Record t : Type := mk {
  stack : path;
  cfnTransitGatewayRouteTable : path
}.
End TgwRouteAttachmentObj.

Definition TgwRouteAttachment (scope : path) (id : string)
    (props : TgwRouteAttachmentProps.t) : M TgwRouteAttachmentObj.t :=
  let prefix := TgwRouteAttachmentProps.prefix props in
  let transitGateway := TgwRouteAttachmentProps.transitGateway props in
  let developmentVpc := TgwRouteAttachmentProps.developmentVpc props in
  let productionVpc := TgwRouteAttachmentProps.productionVpc props in
  this <- Stack scope id (TgwRouteAttachmentProps.stackProps props) ;;
  (* tgw route table *)
  cfnTransitGatewayRouteTable <-
    CfnTransitGatewayRouteTable this (prefix ++ "-RouteTable")
      [ ("transitGatewayId", tok (Ref transitGateway)) ]
      [ ("Name", prefix ++ "-RouteTable") ] ;;
  (* create development tgw-development-vpc-attachment *)
  tgwDevVpcAttachment <-
    CfnTransitGatewayAttachment this (prefix ++ "dev-vpc-tgw-attachment")
      [ ("transitGatewayId", tok (Ref transitGateway));
        ("vpcId", tok (Vpc.vpcId developmentVpc));
        ("subnetIds",
         Some (VToks (map Subnet.subnetId (Vpc.isolatedSubnets developmentVpc)))) ]
      [ ("Name", prefix ++ "dev-vpc-tgw-attachment") ] ;;
  (* create development tgw-production-vpc-attachment *)
  tgwProdVpcAttachment <-
    CfnTransitGatewayAttachment this (prefix ++ "prod-vpc-tgw-attachment")
      [ ("transitGatewayId", tok (Ref transitGateway));
        ("vpcId", tok (Vpc.vpcId productionVpc));
        ("subnetIds",
         Some (VToks (map Subnet.subnetId (Vpc.isolatedSubnets productionVpc)))) ]
      [ ("Name", prefix ++ "prod-vpc-tgw-attachment") ] ;;
  (* development-vpc-attachment and tgw-table association *)
  tgwDevVpcAttRoutTableAssociation <-
    CfnTransitGatewayRouteTableAssociation this
      "dev-vpc-attachment-tgw-route-table-association"
      [ ("transitGatewayRouteTableId", tok (Ref cfnTransitGatewayRouteTable));
        ("transitGatewayAttachmentId", tok (Ref tgwDevVpcAttachment)) ] ;;
  (* production-vpc-attachment and tgw-table association *)
  tgwProdVpcAttRoutTableAssociation <-
    CfnTransitGatewayRouteTableAssociation this
      "prod-vpc-attachment-tgw-route-table-association"
      [ ("transitGatewayRouteTableId", tok (Ref cfnTransitGatewayRouteTable));
        ("transitGatewayAttachmentId", tok (Ref tgwProdVpcAttachment)) ] ;;
  (* dev-vpc-attachment tgw-propogation *)
  CfnTransitGatewayRouteTablePropagation this
    "dev-vpc-attachment-tgw-route-table-propogation"
    [ ("transitGatewayRouteTableId", tok (Ref cfnTransitGatewayRouteTable));
      ("transitGatewayAttachmentId", tok (Ref tgwDevVpcAttachment)) ] ;;;
  (* prod-vpc-attachment tgw-propogation *)
  CfnTransitGatewayRouteTablePropagation this
    "prod-vpc-attachment-tgw-route-table-propogation"
    [ ("transitGatewayRouteTableId", tok (Ref cfnTransitGatewayRouteTable));
      ("transitGatewayAttachmentId", tok (Ref tgwProdVpcAttachment)) ] ;;;
  (* development vpc subnets route update *)
  forOf (Vpc.isolatedSubnets developmentVpc) (fun subnet =>
    route <-
      CfnRoute this "RouteToProdVpcDepartment"
        [ ("routeTableId", tok (Subnet.routeTableId subnet));
          (* vpc cidr here *)
          ("destinationCidrBlock", tok (Vpc.vpcCidrBlock productionVpc));
          ("transitGatewayId", tok (Ref transitGateway)) ] ;;
    addDependsOn route tgwDevVpcAttachment) ;;;
  (* production vpc subnets route update *)
  forOf (Vpc.isolatedSubnets productionVpc) (fun subnet =>
    route <-
      CfnRoute this "RouteToDevVpcDepartment"
        [ ("routeTableId", tok (Subnet.routeTableId subnet));
          (* vpc cidr here *)
          ("destinationCidrBlock", tok (Vpc.vpcCidrBlock developmentVpc));
          ("transitGatewayId", tok (Ref transitGateway)) ] ;;
    addDependsOn route tgwDevVpcAttachment) ;;;
  ret (TgwRouteAttachmentObj.mk this cfnTransitGatewayRouteTable).

(** *** TGW-VPN routing *)

Module TgwVpnRoutingProps.
Record t : Type := mk {
  transitGateway : path;
  vpcRouteTableId : token;
  devAttachmentId : token;
  prodAttachmentId : token;
  vpnAttachmentId : token;
  stackProps : StackProps.t
}.
End TgwVpnRoutingProps.

Definition TgwVpnRouting (scope : path) (id : string)
    (props : TgwVpnRoutingProps.t) : M path :=
  this <- Stack scope id (TgwVpnRoutingProps.stackProps props) ;;
  (* create the routing table association and propogation for TGW-VPN *)
  vpnTransitGatewayRTB <-
    CfnTransitGatewayRouteTable this "VPN"
      [ ("transitGatewayId", tok (Ref (TgwVpnRoutingProps.transitGateway props))) ]
      [ ("Name", "VPNRouteTable") ] ;;
  (* tgw vpn association *)
  CfnTransitGatewayRouteTableAssociation this "VPNAssociation"
    [ ("transitGatewayAttachmentId", tok (TgwVpnRoutingProps.vpnAttachmentId props));
      ("transitGatewayRouteTableId", tok (Ref vpnTransitGatewayRTB)) ] ;;;
  (* tgw vpn propogation *)
  CfnTransitGatewayRouteTablePropagation this "VPNPropogation"
    [ ("transitGatewayAttachmentId", tok (TgwVpnRoutingProps.vpnAttachmentId props));
      ("transitGatewayRouteTableId", tok (Ref vpnTransitGatewayRTB)) ] ;;;
  (* propogate the vpn attachment for dev and prod TGW-VPC Routable *)
  CfnTransitGatewayRouteTablePropagation this "DevelopmentVPNPropagation"
    [ ("transitGatewayAttachmentId", tok (TgwVpnRoutingProps.vpnAttachmentId props));
      ("transitGatewayRouteTableId", tok (TgwVpnRoutingProps.vpcRouteTableId props)) ] ;;;
  (* propogate dev and prod attachment with TGW-VPN RoutTable *)
  CfnTransitGatewayRouteTablePropagation this "VPNDevelopmentPropogation"
    [ ("transitGatewayAttachmentId", tok (TgwVpnRoutingProps.devAttachmentId props));
      ("transitGatewayRouteTableId", tok (Ref vpnTransitGatewayRTB)) ] ;;;
  CfnTransitGatewayRouteTablePropagation this "VPNProductionPropogation"
    [ ("transitGatewayAttachmentId", tok (TgwVpnRoutingProps.prodAttachmentId props));
      ("transitGatewayRouteTableId", tok (Ref vpnTransitGatewayRTB)) ] ;;;
  ret this.

(** ** bin/tgw-on-prem-demo.ts *)

Module TgwOnPremDemo.

(** region to deploy *)
Definition REGION : string := "us-east-1".

Module AppObj.
Record t : Type := mk {
  baseNetwork : BaseNetworkStackObj.t;
  gateway : GatewayObj.t;
  routeAttachment : TgwRouteAttachmentObj.t
}.
End AppObj.

Definition app (cfnParams : Params.t) : M AppObj.t :=
  (* step 1. aws based network *)
  baseNetwork <-
    BaseNetworkStack cfnParams [] "AwsBaseNetwork"
      (StackProps.mk (Some REGION)
                     (Some "Builds the base resources for the TGW")) ;;
  (* step 2. tgw, cgw, vpn-connection *)
  ra <- regionParams cfnParams (Some REGION) ;;
  rc <- regionParams cfnParams (Some REGION) ;;
  gateway <-
    Gateway [] "TgwAndVpnAndCgw"
      (GatewayProps.mk (Some "TGW-") (RegionParams.AmazonSideAsn ra)
                       (Params.OnPremPublicIp cfnParams)
                       (RegionParams.CustomerSideAsn rc)
                       (StackProps.mk (Some REGION) None)) ;;
  (* step 3. tgw route table, tgw-attachments, vpc-subnet-routing *)
  routeAttachment <-
    TgwRouteAttachment [] "TgwRouteAttachment"
      (TgwRouteAttachmentProps.mk "Gateway-"
         (GatewayObj.cfnTransitGateway gateway)
         (VpcWithEc2Obj.vpc (BaseNetworkStackObj.developmentVpc baseNetwork))
         (VpcWithEc2Obj.vpc (BaseNetworkStackObj.productionVpc baseNetwork))
         (StackProps.mk (Some REGION) None)) ;;
  ret (AppObj.mk baseNetwork gateway routeAttachment).

End TgwOnPremDemo.

(** ** Reading the declared topology off the construct tree *)

Fixpoint resources (t : list (path * construct)) : list (path * CfnResourceNode) :=
  match t with
  | [] => []
  | (p, CResource r) :: t' => (p, r) :: resources t'
  | _ :: t' => resources t'
  end.

Definition resourcesOfType (ty : string) (t : list (path * construct))
    : list (path * CfnResourceNode) :=
  filter (fun pr => cfnType (snd pr) =? ty) (resources t).

Definition propTok (name : string) (r : CfnResourceNode) : option token :=
  match lookupProp name (cfnProperties r) with
  | Some (VTok t) => Some t
  | _ => None
  end.

(** An association or propagation: (attachment, route table). *)
Definition link (r : CfnResourceNode) : option token * option token :=
  (propTok "transitGatewayAttachmentId" r, propTok "transitGatewayRouteTableId" r).

Definition attachments (t : list (path * construct)) : list path :=
  map fst (resourcesOfType TransitGatewayAttachmentT t).

Definition associations (t : list (path * construct))
    : list (option token * option token) :=
  map (fun pr => link (snd pr)) (resourcesOfType AssociationT t).

Definition propagations (t : list (path * construct))
    : list (option token * option token) :=
  map (fun pr => link (snd pr)) (resourcesOfType PropagationT t).

Module SubnetRoute.
Record t : Type := mk {
  key : path;
  routeTableId : option token;
  destinationCidrBlock : option token;
  transitGatewayId : option token;
  dependsOn : list path
}.
End SubnetRoute.

Definition subnetRoute (pr : path * CfnResourceNode) : SubnetRoute.t :=
  let r := snd pr in
  SubnetRoute.mk (fst pr) (propTok "routeTableId" r)
                 (propTok "destinationCidrBlock" r)
                 (propTok "transitGatewayId" r) (cfnDependsOn r).

Definition subnetRoutes (t : list (path * construct)) : list SubnetRoute.t :=
  map subnetRoute (resourcesOfType RouteT t).


Definition defaultRoute (this : path) (p : string) (g : path)
    (us : string * Subnet.t) : SubnetRoute.t :=
  SubnetRoute.mk (child this ((p ++ fst us) ++ "-tgw-route"))
    (Some (Subnet.routeTableId (snd us))) (Some (Lit "0.0.0.0/0"))
    (Some (Ref g)) [g].


Definition otoken_eqb (a b : option token) : bool :=
  match a, b with
  | Some x, Some y => token_eqb x y
  | None, None => true
  | _, _ => false
  end.

(** The routes written into the route table [rt]. *)
Definition routesIn (rt : token) (t : list (path * construct)) : list SubnetRoute.t :=
  filter (fun r => otoken_eqb (SubnetRoute.routeTableId r) (Some rt)) (subnetRoutes t).

(** The route tables an attachment is associated with. *)
Definition associatedWith (att : token) (t : list (path * construct))
    : list (option token) :=
  map snd (filter (fun l => otoken_eqb (fst l) (Some att)) (associations t)).


(** *** The VPN link *)

(** The states of the VPN link, by the resource whose creation enters them. *)
Inductive VpnLinkState : Type :=
| Unprovisioned
| CustomerGatewayCreated
| TransitGatewayCreated
| VPNConnectionEstablished.

Definition linkEvent (type : string) : option VpnLinkState :=
  if type =? CustomerGatewayT then Some CustomerGatewayCreated
  else if type =? TransitGatewayT then Some TransitGatewayCreated
  else if type =? VPNConnectionT then Some VPNConnectionEstablished
  else None.

Fixpoint linkEvents (l : list (path * CfnResourceNode)) : list VpnLinkState :=
  match l with
  | [] => []
  | (_, r) :: l' =>
      match linkEvent (cfnType r) with
      | Some st => st :: linkEvents l'
      | None => linkEvents l'
      end
  end.

(** The states the link goes through while a tree is built: the tree lists
    its constructs in creation order. *)
Definition linkTrace (t : list (path * construct)) : list VpnLinkState :=
  Unprovisioned :: linkEvents (resources t).

(** The resources created before the one at [p]. *)
Fixpoint createdBefore (p : path) (t : list (path * construct)) : list path :=
  match t with
  | [] => []
  | (q, _) :: t' => if path_eqb q p then [] else q :: createdBefore p t'
  end.

(** *** Failures *)


(** *** Default route tables of the hub *)

(** What a hub adds by itself to the declared associations (for [flag]
    "defaultRouteTableAssociation") or propagations (for
    "defaultRouteTablePropagation"): unless the flag is "disable", every
    attachment is linked to the hub's default route table. *)
Definition implicitLinks (flag : string) (t : list (path * construct))
    : list (path * path) :=
  flat_map
    (fun hub =>
       if otoken_eqb (propTok flag (snd hub)) (Some (Lit "disable"))
       then []
       else map (fun a => (a, fst hub)) (attachments t))
    (resourcesOfType TransitGatewayT t).

(** A scope is fresh in a tree when the tree has no construct at or below
    it: the situation in which a constructor starts to populate it. *)
Fixpoint under (root p : path) : bool :=
  match root, p with
  | [], _ => true
  | x :: r, y :: q => (x =? y) && under r q
  | _ :: _, [] => false
  end.

Definition freshScope (root : path) (t : list (path * construct)) : bool :=
  forallb (fun p => negb (under root p)) (map fst t).

Definition isDefined (props : list (string * option value)) (name : string) : bool :=
  match lookupProp name props with
  | Some (Some _) => true
  | _ => false
  end.

(** *** Determinism *)




Definition succeeded {A} (r : result A * State) : bool :=
  match fst r with
  | Ok _ => true
  | Throw _ => false
  end.

(** ** Concrete inputs *)

Definition sampleEnv : Env :=
  mkEnv ["us-east-1a"; "us-east-1b"] (fun n => "uuid-" ++ decimal n n).

Definition sampleRegion : RegionParams.t :=
  RegionParams.mk (Some "10.0.0.0/24") (Some "10.0.1.0/24")
                  (Some "172.16.0.0/24") (Some 24%Z)
                  (Some 64512%Z) (Some 65000%Z).

Definition sampleParams : Params.t :=
  Params.mk [(TgwOnPremDemo.REGION, sampleRegion)] (Some "203.0.113.10").

(** A Vpc handle with [n] isolated subnets and no public one. *)
Definition sampleVpc (name : string) (n : nat) : Vpc.t :=
  let node := ["AwsBaseNetwork"; name; name ++ "-VPC"] in
  Vpc.mk node (Ref (child node "Resource"))
         (GetAtt (child node "Resource") "CidrBlock") []
         (map (vpcSubnet node
                 (SubnetConfiguration.mk (Some 24%Z) (name ++ "-VPC | ISOLATED")
                                         PRIVATE_ISOLATED))
              (seq 1 n)).

Definition sampleHub : path := ["TgwAndVpnAndCgw"; "TGW--TGW"].

Definition sampleRouteAttachment (ndev nprod : nat) : TgwRouteAttachmentProps.t :=
  TgwRouteAttachmentProps.mk "Gateway-" sampleHub
    (sampleVpc "Development" ndev) (sampleVpc "Production" nprod)
    (StackProps.mk (Some TgwOnPremDemo.REGION) None).



(** The two routing stacks in one App: [TgwRouteAttachment] as the demo
    program instantiates it, then [TgwVpnRouting], given the route table and
    the two attachments of the first stack and the identifier of the VPN
    attachment. *)
Definition hubRouting (props : TgwRouteAttachmentProps.t)
    (vpnAttachmentId : token) : M path :=
  routeAttachment <- TgwRouteAttachment [] "TgwRouteAttachment" props ;;
  let stack := TgwRouteAttachmentObj.stack routeAttachment in
  let prefix := TgwRouteAttachmentProps.prefix props in
  TgwVpnRouting [] "TgwVpnRouting"
    (TgwVpnRoutingProps.mk
       (TgwRouteAttachmentProps.transitGateway props)
       (Ref (TgwRouteAttachmentObj.cfnTransitGatewayRouteTable routeAttachment))
       (Ref (child stack (prefix ++ "dev-vpc-tgw-attachment")))
       (Ref (child stack (prefix ++ "prod-vpc-tgw-attachment")))
       vpnAttachmentId
       (TgwRouteAttachmentProps.stackProps props)).

Definition sampleVpnAttachment : token := Lit "tgw-attach-0f1e2d3c4b5a69788".

Definition sampleGateway : GatewayProps.t :=
  GatewayProps.mk (Some "TGW-") (Some 64512%Z) (Some "203.0.113.10")
                  (Some 65000%Z) (StackProps.mk (Some TgwOnPremDemo.REGION) None).



(** *** Outputs *)


(** The values a tree exports, by export name. *)
Fixpoint exports (t : list (path * construct)) : list (string * token) :=
  match t with
  | [] => []
  | (_, COutput o) :: t' =>
      match exportName o with
      | Some n => (n, outputValue o) :: exports t'
      | None => exports t'
      end
  | _ :: t' => exports t'
  end.

(** *** References to the hub *)

(** The values of the [transitGatewayId] properties in a tree. *)
Definition transitGatewayIds (t : list (path * construct)) : list token :=
  flat_map (fun pr => match propTok "transitGatewayId" (snd pr) with
                      | Some x => [x]
                      | None => []
                      end)
           (resources t).

(** *** Growth of the tree *)

(** A computation that only adds constructs at the end of the tree, leaving
    those it finds as they are, and never takes back a drawn identifier. *)
Definition onlyAppends {A} (m : M A) : Prop :=
  forall env s,
    exists new,
      tree (snd (m env s)) = (tree s ++ new)%list /\
      (drawn s <= drawn (snd (m env s)))%nat.

(** * Reasoning about runs *)

(** ** Strings and paths *)

Module StrFacts.

Lemma append_eq_suffix (p a c : string) :
  p ++ a = c -> Str.is_suffix a c = true.
Proof.
  revert c; induction p as [|x p IH]; intros c H; simpl in H; subst c.
  - destruct a; simpl; rewrite ?Ascii.eqb_refl, ?String.eqb_refl; reflexivity.
  - simpl. rewrite (IH _ eq_refl). apply orb_true_r.
Qed.

Lemma eqb_append_fixed (p a c : string) :
  Str.is_suffix a c = false -> (p ++ a =? c) = false.
Proof.
  intros H. apply String.eqb_neq. intros E.
  apply append_eq_suffix in E. congruence.
Qed.

Lemma eqb_fixed_append (p a c : string) :
  Str.is_suffix a c = false -> (c =? p ++ a) = false.
Proof. intros H. rewrite String.eqb_sym. now apply eqb_append_fixed. Qed.

Lemma append_inj_l (p a b : string) : p ++ a = p ++ b -> a = b.
Proof. induction p; simpl; intros H; [assumption|]. injection H; auto. Qed.

Lemma eqb_append_l (p a b : string) : (p ++ a =? p ++ b) = (a =? b).
Proof.
  destruct (String.eqb_spec a b) as [->|N].
  - apply String.eqb_refl.
  - apply String.eqb_neq. intros E. apply N. eapply append_inj_l; eauto.
Qed.

Lemma length_append (a b : string) :
  String.length (a ++ b) = String.length a + String.length b.
Proof. induction a; simpl; congruence. Qed.

Lemma append_inj_r (a b s : string) : a ++ s = b ++ s -> a = b.
Proof.
  revert b; induction a as [|x a IH]; intros [|y b] H; simpl in H.
  - reflexivity.
  - apply (f_equal String.length) in H. simpl in H.
    rewrite length_append in H. lia.
  - apply (f_equal String.length) in H. simpl in H.
    rewrite length_append in H. lia.
  - injection H as -> H. f_equal. now apply IH.
Qed.

Lemma eqb_append_r (a b s : string) : (a ++ s =? b ++ s) = (a =? b).
Proof.
  destruct (String.eqb_spec a b) as [->|N].
  - apply String.eqb_refl.
  - apply String.eqb_neq. intros E. apply N. eapply append_inj_r; eauto.
Qed.

End StrFacts.

Lemma path_eqb_spec (p q : path) : reflect (p = q) (path_eqb p q).
Proof.
  revert q; induction p as [|x p IH]; intros [|y q]; simpl;
    try (constructor; congruence).
  destruct (String.eqb_spec x y) as [->|N]; simpl.
  - destruct (IH q) as [->|N]; constructor; congruence.
  - constructor; congruence.
Qed.

Lemma path_eqb_refl (p : path) : path_eqb p p = true.
Proof. destruct (path_eqb_spec p p); congruence. Qed.

Lemma token_eqb_spec (a b : token) : reflect (a = b) (token_eqb a b).
Proof.
  destruct a as [s|p|p x], b as [t|q|q y]; simpl; try (constructor; congruence).
  - destruct (String.eqb_spec s t); constructor; congruence.
  - destruct (path_eqb_spec p q); constructor; congruence.
  - destruct (path_eqb_spec p q); simpl; [|constructor; congruence].
    destruct (String.eqb_spec x y); constructor; congruence.
Qed.

Lemma token_eqb_refl (a : token) : token_eqb a a = true.
Proof. destruct (token_eqb_spec a a); congruence. Qed.

Section Paths.

Lemma under_refl (r : path) : under r r = true.
Proof. induction r; simpl; rewrite ?String.eqb_refl; auto. Qed.

Lemma under_child (r : path) (x : string) : under r (child r x) = true.
Proof. induction r; simpl; rewrite ?String.eqb_refl; auto. Qed.

Lemma under_trans (a b c : path) :
  under a b = true -> under b c = true -> under a c = true.
Proof.
  revert b c; induction a as [|x a IH]; intros [|y b] [|z c]; simpl;
    try congruence; auto.
  intros H1 H2. apply andb_true_iff in H1 as [E1 H1].
  apply andb_true_iff in H2 as [E2 H2].
  apply String.eqb_eq in E1, E2. subst. rewrite String.eqb_refl. simpl.
  eauto.
Qed.

Lemma under_grandchild (r : path) (x y : string) :
  under r (child (child r x) y) = true.
Proof. eapply under_trans; apply under_child. Qed.

Lemma path_eqb_child (r : path) (x y : string) :
  path_eqb (child r x) (child r y) = (x =? y).
Proof.
  induction r as [|a r IH]; simpl.
  - apply andb_true_r.
  - rewrite String.eqb_refl. exact IH.
Qed.

Lemma path_eqb_child_self (r : path) (x : string) :
  path_eqb (child r x) r = false.
Proof.
  induction r as [|a r IH]; simpl; [reflexivity|].
  rewrite String.eqb_refl. exact IH.
Qed.

Lemma path_eqb_self_child (r : path) (x : string) :
  path_eqb r (child r x) = false.
Proof.
  induction r as [|a r IH]; simpl; [reflexivity|].
  rewrite String.eqb_refl. exact IH.
Qed.

Lemma has_path_app (p : path) (t1 t2 : list (path * construct)) :
  has_path p (t1 ++ t2)%list = has_path p t1 || has_path p t2.
Proof. unfold has_path. now rewrite map_app, existsb_app. Qed.

Lemma has_path_fresh (root p : path) (t : list (path * construct)) :
  freshScope root t = true -> under root p = true -> has_path p t = false.
Proof.
  unfold freshScope, has_path. intros F U.
  induction (map fst t) as [|q l IH]; simpl in *; [reflexivity|].
  apply andb_true_iff in F as [Fq Fl]. rewrite (IH Fl), orb_false_r.
  destruct (path_eqb_spec p q) as [->|]; [|reflexivity].
  rewrite U in Fq. discriminate.
Qed.

End Paths.

(** ** Steps of a run *)

Section Steps.

Context {A B : Type}.

Lemma bind_Ok (m : M A) (k : A -> M B) env s a s' :
  m env s = (Ok a, s') -> bind m k env s = k a env s'.
Proof. unfold bind. now intros ->. Qed.

Lemma bind_Throw (m : M A) (k : A -> M B) env s e s' :
  m env s = (Throw e, s') -> bind m k env s = (Throw e, s').
Proof. unfold bind. now intros ->. Qed.

End Steps.

Lemma Node_addChild_Ok scope id c env s :
  has_path (child scope id) (tree s) = false ->
  Node_addChild scope id c env s
  = (Ok (child scope id), mkState (tree s ++ [(child scope id, c)])%list (drawn s)).
Proof. unfold Node_addChild. now intros ->. Qed.

Lemma Node_addChild_Throw scope id c env s :
  has_path (child scope id) (tree s) = true ->
  Node_addChild scope id c env s = (Throw (AlreadyExists scope id), s).
Proof. unfold Node_addChild. now intros ->. Qed.

Lemma required_Ok res props required env s :
  forallb (isDefined props) required = true ->
  forOf required (requireProperty res props) env s = (Ok tt, s).
Proof.
  induction required as [|n l IH]; simpl; intros H; [reflexivity|].
  apply andb_true_iff in H as [Hn Hl].
  unfold bind, requireProperty, isDefined in *.
  destruct (lookupProp n props) as [[v|]|]; try discriminate.
  simpl. now apply IH.
Qed.

Lemma newCfnResource_Ok scope id ty props tags required env s :
  has_path (child scope id) (tree s) = false ->
  forallb (isDefined props) required = true ->
  newCfnResource scope id ty props tags required env s
  = (Ok (child scope id),
     mkState (tree s ++ [(child scope id,
                          CResource (mkCfn ty (definedProps props) tags []))])%list
             (drawn s)).
Proof.
  intros F R. unfold newCfnResource.
  erewrite bind_Ok by (apply Node_addChild_Ok; exact F).
  erewrite bind_Ok by (apply required_Ok; exact R).
  reflexivity.
Qed.

Lemma newCfnResource_Throw scope id ty props tags required env s :
  has_path (child scope id) (tree s) = true ->
  newCfnResource scope id ty props tags required env s
  = (Throw (AlreadyExists scope id), s).
Proof.
  intros F. unfold newCfnResource.
  erewrite bind_Throw by (apply Node_addChild_Throw; exact F).
  reflexivity.
Qed.

Lemma bind_assoc {A B C} (m : M A) (f : A -> M B) (g : B -> M C) env s :
  bind (bind m f) g env s = bind m (fun x => bind (f x) g) env s.
Proof. unfold bind. destruct (m env s) as [[a|e] s']; reflexivity. Qed.

Lemma bind_ret {A B} (a : A) (k : A -> M B) env s :
  bind (ret a) k env s = k a env s.
Proof. reflexivity. Qed.

Lemma addDependsOn_Ok res target env s :
  addDependsOn res target env s
  = (Ok tt, mkState (map (addDep res target) (tree s)) (drawn s)).
Proof. reflexivity. Qed.

Lemma addDep_absent res target (t : list (path * construct)) :
  has_path res t = false -> map (addDep res target) t = t.
Proof.
  unfold has_path. induction t as [|[q c] t IH]; simpl; [reflexivity|].
  intros H. apply orb_false_iff in H as [Hq Ht]. rewrite (IH Ht). f_equal.
  destruct c; try reflexivity.
  destruct (path_eqb_spec q res) as [->|]; [|reflexivity].
  rewrite path_eqb_refl in Hq. discriminate.
Qed.

(** [var r = new Cfn...(scope, id, props); r.addDependsOn(target)] *)
Lemma newCfnResource_dep_Ok scope id ty props tags required target env s :
  has_path (child scope id) (tree s) = false ->
  forallb (isDefined props) required = true ->
  bind (newCfnResource scope id ty props tags required)
       (fun r => addDependsOn r target) env s
  = (Ok tt,
     mkState (tree s ++ [(child scope id,
                          CResource (mkCfn ty (definedProps props) tags [target]))])%list
             (drawn s)).
Proof.
  intros F R.
  erewrite bind_Ok by (apply newCfnResource_Ok; eassumption).
  rewrite addDependsOn_Ok. cbn [tree drawn]. f_equal. f_equal.
  rewrite map_app, (addDep_absent _ _ _ F). cbn [map addDep].
  now rewrite path_eqb_refl.
Qed.

Lemma newCfnResource_dep_Throw scope id ty props tags required target env s :
  has_path (child scope id) (tree s) = true ->
  bind (newCfnResource scope id ty props tags required)
       (fun r => addDependsOn r target) env s
  = (Throw (AlreadyExists scope id), s).
Proof.
  intros F. now erewrite bind_Throw by (apply newCfnResource_Throw; exact F).
Qed.

(** ** Symbolic execution of constructors *)

Ltac norm_ids :=
  repeat first
    [ rewrite path_eqb_child
    | rewrite path_eqb_child_self
    | rewrite path_eqb_self_child
    | rewrite path_eqb_refl
    | rewrite String.eqb_refl
    | rewrite StrFacts.eqb_append_l
    | rewrite StrFacts.eqb_append_r
    | rewrite StrFacts.eqb_append_fixed by reflexivity
    | rewrite StrFacts.eqb_fixed_append by reflexivity ].

Ltac under_scope :=
  first [ apply under_refl | apply under_child | apply under_grandchild ].

(** Decides [has_path p t] for a tree made of a fresh part and of nodes
    created since. *)
Ltac decide_path :=
  cbn [tree];
  rewrite ?has_path_app;
  repeat match goal with
    | F : freshScope ?root ?t = true |- context [has_path ?p ?t] =>
        rewrite (has_path_fresh root p t F) by under_scope
    end;
  cbv [has_path existsb map fst];
  norm_ids; reflexivity.

Ltac tidy := cbv beta; cbn [tree drawn].

(** One successful [new Cfn...(...)] or [new Construct(...)]. *)
Ltac step_new :=
  first
    [ erewrite bind_Ok by (apply newCfnResource_Ok; [decide_path | reflexivity])
    | erewrite bind_Ok by (apply Node_addChild_Ok; decide_path) ];
  tidy.

(** One iteration of a loop whose body creates a resource and adds a
    dependency to it, accepted or refused. *)
Ltac loop_iter :=
  rewrite bind_assoc;
  erewrite bind_Ok by (apply newCfnResource_dep_Ok; [decide_path | reflexivity]);
  tidy.

Ltac loop_dup :=
  rewrite bind_assoc;
  erewrite bind_Throw by (apply newCfnResource_dep_Throw; decide_path).

Ltac loop_end := rewrite bind_ret.

Ltac finish_run :=
  unfold ret; rewrite <- ?app_assoc; reflexivity.

(** ** The declared topology of a tree built in several steps *)

Lemma resources_app (t1 t2 : list (path * construct)) :
  resources (t1 ++ t2)%list = (resources t1 ++ resources t2)%list.
Proof.
  induction t1 as [|[p c] t1 IH]; simpl; [reflexivity|].
  destruct c; simpl; rewrite IH; reflexivity.
Qed.

Lemma resourcesOfType_app ty (t1 t2 : list (path * construct)) :
  resourcesOfType ty (t1 ++ t2)%list
  = (resourcesOfType ty t1 ++ resourcesOfType ty t2)%list.
Proof. unfold resourcesOfType. now rewrite resources_app, filter_app. Qed.

Lemma attachments_app (t1 t2 : list (path * construct)) :
  attachments (t1 ++ t2)%list = (attachments t1 ++ attachments t2)%list.
Proof. unfold attachments. now rewrite resourcesOfType_app, map_app. Qed.

Lemma associations_app (t1 t2 : list (path * construct)) :
  associations (t1 ++ t2)%list = (associations t1 ++ associations t2)%list.
Proof. unfold associations. now rewrite resourcesOfType_app, map_app. Qed.

Lemma propagations_app (t1 t2 : list (path * construct)) :
  propagations (t1 ++ t2)%list = (propagations t1 ++ propagations t2)%list.
Proof. unfold propagations. now rewrite resourcesOfType_app, map_app. Qed.


(** ** What each routing stack declares *)

Lemma TgwVpnRouting_run scope id props env s0 :
  freshScope (child scope id) (tree s0) = true ->
  let this := child scope id in
  let vpnRTB := Ref (child this "VPN") in
  exists new,
    TgwVpnRouting scope id props env s0
    = (Ok this, mkState (tree s0 ++ new)%list (drawn s0)) /\
    map fst new
    = [ this; child this "VPN"; child this "VPNAssociation";
        child this "VPNPropogation"; child this "DevelopmentVPNPropagation";
        child this "VPNDevelopmentPropogation";
        child this "VPNProductionPropogation" ] /\
    attachments new = [] /\
    associations new
    = [ (Some (TgwVpnRoutingProps.vpnAttachmentId props), Some vpnRTB) ] /\
    propagations new
    = [ (Some (TgwVpnRoutingProps.vpnAttachmentId props), Some vpnRTB);
        (Some (TgwVpnRoutingProps.vpnAttachmentId props),
         Some (TgwVpnRoutingProps.vpcRouteTableId props));
        (Some (TgwVpnRoutingProps.devAttachmentId props), Some vpnRTB);
        (Some (TgwVpnRoutingProps.prodAttachmentId props), Some vpnRTB) ] /\
    subnetRoutes new = [].
Proof.
  intros F this vpnRTB. eexists.
  unfold TgwVpnRouting, Stack, newStack, CfnTransitGatewayRouteTable,
    CfnTransitGatewayRouteTableAssociation,
    CfnTransitGatewayRouteTablePropagation.
  split; [do 7 step_new; finish_run|].
  repeat split; reflexivity.
Qed.

Ltac unfold_RouteAttachment :=
  unfold TgwRouteAttachment, Stack, newStack, CfnTransitGatewayRouteTable,
    CfnTransitGatewayAttachment, CfnRoute,
    CfnTransitGatewayRouteTableAssociation,
    CfnTransitGatewayRouteTablePropagation.

(** Up to the first loop: the stack, its route table, the two attachments,
    their associations and propagations. *)
Ltac wiring_RouteAttachment :=
  do 8 step_new; cbn [forOf].

Section RouteAttachment.

Variables (scope : path) (id : string) (props : TgwRouteAttachmentProps.t).
Let prefix := TgwRouteAttachmentProps.prefix props.
Let tgw := TgwRouteAttachmentProps.transitGateway props.
Let dev := TgwRouteAttachmentProps.developmentVpc props.
Let prod := TgwRouteAttachmentProps.productionVpc props.
Let this := child scope id.
Let rtb := child this (prefix ++ "-RouteTable").
Let devAtt := child this (prefix ++ "dev-vpc-tgw-attachment").
Let prodAtt := child this (prefix ++ "prod-vpc-tgw-attachment").
Let toProd := child this "RouteToProdVpcDepartment".
Let toDev := child this "RouteToDevVpcDepartment".

Lemma TgwRouteAttachment_run env s0 :
  freshScope this (tree s0) = true ->
  (List.length (Vpc.isolatedSubnets dev) <= 1)%nat ->
  (List.length (Vpc.isolatedSubnets prod) <= 1)%nat ->
  exists new,
    TgwRouteAttachment scope id props env s0
    = (Ok (TgwRouteAttachmentObj.mk this rtb),
       mkState (tree s0 ++ new)%list (drawn s0)) /\
    map fst new
    = ([ this; rtb; devAtt; prodAtt;
         child this "dev-vpc-attachment-tgw-route-table-association";
         child this "prod-vpc-attachment-tgw-route-table-association";
         child this "dev-vpc-attachment-tgw-route-table-propogation";
         child this "prod-vpc-attachment-tgw-route-table-propogation" ]
       ++ map (fun _ => toProd) (Vpc.isolatedSubnets dev)
       ++ map (fun _ => toDev) (Vpc.isolatedSubnets prod))%list /\
    attachments new = [devAtt; prodAtt] /\
    associations new
    = [ (Some (Ref devAtt), Some (Ref rtb));
        (Some (Ref prodAtt), Some (Ref rtb)) ] /\
    propagations new
    = [ (Some (Ref devAtt), Some (Ref rtb));
        (Some (Ref prodAtt), Some (Ref rtb)) ] /\
    subnetRoutes new
    = (map (fun subnet =>
              SubnetRoute.mk toProd (Some (Subnet.routeTableId subnet))
                (Some (Vpc.vpcCidrBlock prod)) (Some (Ref tgw)) [devAtt])
           (Vpc.isolatedSubnets dev)
       ++ map (fun subnet =>
              SubnetRoute.mk toDev (Some (Subnet.routeTableId subnet))
                (Some (Vpc.vpcCidrBlock dev)) (Some (Ref tgw)) [devAtt])
           (Vpc.isolatedSubnets prod))%list.
Proof.
  intros F Hd Hp. unfold_RouteAttachment.
  fold prefix tgw dev prod.
  destruct (Vpc.isolatedSubnets dev) as [|a [|b r]]; [| |simpl in Hd; lia];
    (destruct (Vpc.isolatedSubnets prod) as [|c [|d r']];
     [| |simpl in Hp; lia]);
    eexists.
  - split; [wiring_RouteAttachment; loop_end; loop_end; finish_run|].
    repeat split; reflexivity.
  - split; [wiring_RouteAttachment; loop_end; loop_iter; loop_end;
            finish_run|].
    repeat split; reflexivity.
  - split; [wiring_RouteAttachment; loop_iter; loop_end; loop_end;
            finish_run|].
    repeat split; reflexivity.
  - split; [wiring_RouteAttachment; loop_iter; loop_end; loop_iter; loop_end;
            finish_run|].
    repeat split; reflexivity.
Qed.

(** A second development subnet: the loop asks for the identifier
    ["RouteToProdVpcDepartment"] again. *)
Lemma TgwRouteAttachment_dev_twice env s0 a b r :
  freshScope this (tree s0) = true ->
  Vpc.isolatedSubnets dev = a :: b :: r ->
  exists new,
    TgwRouteAttachment scope id props env s0
    = (Throw (AlreadyExists this "RouteToProdVpcDepartment"),
       mkState (tree s0 ++ new)%list (drawn s0)) /\
    attachments new = [devAtt; prodAtt] /\
    subnetRoutes new
    = [ SubnetRoute.mk toProd (Some (Subnet.routeTableId a))
          (Some (Vpc.vpcCidrBlock prod)) (Some (Ref tgw)) [devAtt] ].
Proof.
  intros F Hd. eexists. unfold_RouteAttachment.
  fold prefix tgw dev prod. rewrite Hd.
  split; [wiring_RouteAttachment; loop_iter; loop_dup;
          rewrite <- ?app_assoc; reflexivity|].
  repeat split; reflexivity.
Qed.

(** Likewise for a second production subnet and
    ["RouteToDevVpcDepartment"]. *)
Lemma TgwRouteAttachment_prod_twice env s0 c d r :
  freshScope this (tree s0) = true ->
  (List.length (Vpc.isolatedSubnets dev) <= 1)%nat ->
  Vpc.isolatedSubnets prod = c :: d :: r ->
  exists new,
    TgwRouteAttachment scope id props env s0
    = (Throw (AlreadyExists this "RouteToDevVpcDepartment"),
       mkState (tree s0 ++ new)%list (drawn s0)) /\
    attachments new = [devAtt; prodAtt].
Proof.
  intros F Hd Hp. unfold_RouteAttachment.
  fold prefix tgw dev prod. rewrite Hp.
  destruct (Vpc.isolatedSubnets dev) as [|a [|b r']]; [| |simpl in Hd; lia];
    eexists.
  - split; [wiring_RouteAttachment; loop_end; loop_iter; loop_dup;
            rewrite <- ?app_assoc; reflexivity|].
    reflexivity.
  - split; [wiring_RouteAttachment; loop_iter; loop_end; loop_iter; loop_dup;
            rewrite <- ?app_assoc; reflexivity|].
    reflexivity.
Qed.

End RouteAttachment.

(** ** What [SubnetRouting] declares *)

Section SubnetRoutingRun.

Variables (this : path) (props : SubnetRoutingProps.t) (p : string) (g : path).
Hypothesis Hprefix : SubnetRoutingProps.prefix props = Some p.
Hypothesis Htgw : SubnetRoutingProps.transitGateway props = Some g.

Let route := defaultRoute this p g.




End SubnetRoutingRun.


(** * The subnet routes of [TgwRouteAttachment] *)

(** C9 (as amended).  Every development-side route is created under the one
    identifier "RouteToProdVpcDepartment" and every production-side route
    under "RouteToDevVpcDepartment".  So the stack is built exactly when each
    of the two segments has at most one subnet (none or one); a second subnet
    in a segment makes the construction fail on the duplicate identifier. *)
Theorem route_identifiers_fixed scope id props env s0 :
  freshScope (child scope id) (tree s0) = true ->
  let this := child scope id in
  let dev := Vpc.isolatedSubnets (TgwRouteAttachmentProps.developmentVpc props) in
  let prod := Vpc.isolatedSubnets (TgwRouteAttachmentProps.productionVpc props) in
  let run := TgwRouteAttachment scope id props env s0 in
  (succeeded run = true
   <-> (List.length dev <= 1)%nat /\ (List.length prod <= 1)%nat) /\
  ((2 <= List.length dev)%nat ->
   fst run = Throw (AlreadyExists this "RouteToProdVpcDepartment")) /\
  ((List.length dev <= 1)%nat -> (2 <= List.length prod)%nat ->
   fst run = Throw (AlreadyExists this "RouteToDevVpcDepartment")) /\
  ((List.length dev <= 1)%nat -> (List.length prod <= 1)%nat ->
   exists new,
     snd run = mkState (tree s0 ++ new)%list (drawn s0) /\
     map SubnetRoute.key (subnetRoutes new)
     = (map (fun _ => child this "RouteToProdVpcDepartment") dev
        ++ map (fun _ => child this "RouteToDevVpcDepartment") prod)%list).
Proof.
  intros F this dev prod run.
  assert (Hdev2 : (2 <= List.length dev)%nat ->
            fst run = Throw (AlreadyExists this "RouteToProdVpcDepartment")).
  { intros H. subst dev. 
    destruct (Vpc.isolatedSubnets (TgwRouteAttachmentProps.developmentVpc props))
      as [|a [|b r]] eqn:E; simpl in H; try lia.
    destruct (TgwRouteAttachment_dev_twice scope id props env s0 a b r F E)
      as (new & R & _).
    subst run. now rewrite R. }
  assert (Hprod2 : (List.length dev <= 1)%nat -> (2 <= List.length prod)%nat ->
            fst run = Throw (AlreadyExists this "RouteToDevVpcDepartment")).
  { intros Hd H. subst prod.
    destruct (Vpc.isolatedSubnets (TgwRouteAttachmentProps.productionVpc props))
      as [|c [|d r]] eqn:E; simpl in H; try lia.
    destruct (TgwRouteAttachment_prod_twice scope id props env s0 c d r F Hd E)
      as (new & R & _).
    subst run. now rewrite R. }
  assert (Hok : (List.length dev <= 1)%nat -> (List.length prod <= 1)%nat ->
            exists new,
              run = (Ok (TgwRouteAttachmentObj.mk this
                           (child this (TgwRouteAttachmentProps.prefix props
                                        ++ "-RouteTable"))),
                     mkState (tree s0 ++ new)%list (drawn s0)) /\
              map SubnetRoute.key (subnetRoutes new)
              = (map (fun _ => child this "RouteToProdVpcDepartment") dev
                 ++ map (fun _ => child this "RouteToDevVpcDepartment") prod)%list).
  { intros Hd Hp.
    destruct (TgwRouteAttachment_run scope id props env s0 F Hd Hp)
      as (new & R & _ & _ & _ & _ & Rt).
    exists new. split; [exact R|].
    rewrite Rt, map_app, !map_map. reflexivity. }
  split; [split|split; [|split]].
  - intros S.
    destruct (le_lt_dec (List.length dev) 1) as [Hd|Hd].
    + split; [exact Hd|].
      destruct (le_lt_dec (List.length prod) 1) as [Hp|Hp]; [exact Hp|].
      unfold succeeded in S. rewrite (Hprod2 Hd Hp) in S. discriminate.
    + unfold succeeded in S. rewrite (Hdev2 Hd) in S. discriminate.
  - intros [Hd Hp]. destruct (Hok Hd Hp) as (new & R & _).
    rewrite R. reflexivity.
  - exact Hdev2.
  - exact Hprod2.
  - intros Hd Hp. destruct (Hok Hd Hp) as (new & R & K).
    exists new. rewrite R. split; [reflexivity | exact K].
Qed.

Lemma route_identifiers_fixed_witness :
  let props := sampleRouteAttachment 1 1 in
  let run := TgwRouteAttachment [] "TgwRouteAttachment" props sampleEnv newApp in
  freshScope (child [] "TgwRouteAttachment") (tree newApp) = true /\
  (succeeded run = true <-> (1 <= 1)%nat /\ (1 <= 1)%nat).
Proof.
  split; [reflexivity|].
  exact (proj1 (route_identifiers_fixed [] "TgwRouteAttachment"
                  (sampleRouteAttachment 1 1) sampleEnv newApp eq_refl)).
Defined.

(** C9, counterexample: with no development subnet and one production subnet
    the stack is built, although not every segment has exactly one subnet. *)
Lemma no_subnet_accepted :
  let props := sampleRouteAttachment 0 1 in
  succeeded (TgwRouteAttachment [] "TgwRouteAttachment" props sampleEnv newApp)
  = true /\
  List.length (Vpc.isolatedSubnets (TgwRouteAttachmentProps.developmentVpc props))
  <> 1%nat.
Proof. split; [vm_compute; reflexivity | vm_compute; discriminate]. Qed.

(** C2, evaluated at a development segment of two subnets: the second
    iteration of the loop is refused for its identifier, the construction
    stops there, and neither the second development subnet nor the production
    subnet has a route. *)
Theorem second_subnet_route_refused :
  let props := sampleRouteAttachment 2 1 in
  let dev := TgwRouteAttachmentProps.developmentVpc props in
  let prod := TgwRouteAttachmentProps.productionVpc props in
  let run := TgwRouteAttachment [] "TgwRouteAttachment" props sampleEnv newApp in
  fst run
  = Throw (AlreadyExists ["TgwRouteAttachment"] "RouteToProdVpcDepartment") /\
  map (fun subnet =>
         List.length (routesIn (Subnet.routeTableId subnet) (tree (snd run))))
      (Vpc.isolatedSubnets dev) = [1; 0]%nat /\
  map (fun subnet =>
         List.length (routesIn (Subnet.routeTableId subnet) (tree (snd run))))
      (Vpc.isolatedSubnets prod) = [0]%nat.
Proof. vm_compute. repeat split. Qed.

(** With one subnet in each segment the routes are as C2 describes them:
    one route per subnet, to the peer's CIDR block, through the hub. *)
Lemma peer_routes_single_subnet scope id props env s0 a c :
  freshScope (child scope id) (tree s0) = true ->
  let dev := TgwRouteAttachmentProps.developmentVpc props in
  let prod := TgwRouteAttachmentProps.productionVpc props in
  let hub := TgwRouteAttachmentProps.transitGateway props in
  Vpc.isolatedSubnets dev = [a] ->
  Vpc.isolatedSubnets prod = [c] ->
  Subnet.routeTableId a <> Subnet.routeTableId c ->
  exists obj new,
    TgwRouteAttachment scope id props env s0
    = (Ok obj, mkState (tree s0 ++ new)%list (drawn s0)) /\
    map (fun r => (SubnetRoute.destinationCidrBlock r, SubnetRoute.transitGatewayId r))
        (routesIn (Subnet.routeTableId a) new)
    = [ (Some (Vpc.vpcCidrBlock prod), Some (Ref hub)) ] /\
    map (fun r => (SubnetRoute.destinationCidrBlock r, SubnetRoute.transitGatewayId r))
        (routesIn (Subnet.routeTableId c) new)
    = [ (Some (Vpc.vpcCidrBlock dev), Some (Ref hub)) ].
Proof.
  intros F dev prod hub Ha Hc N.
  destruct (TgwRouteAttachment_run scope id props env s0 F) as
    (new & R & _ & _ & _ & _ & Rt).
  { fold dev. rewrite Ha. simpl. lia. }
  { fold prod. rewrite Hc. simpl. lia. }
  fold dev prod in Rt. rewrite Ha, Hc in Rt.
  eexists. exists new. split; [exact R|].
  unfold routesIn. rewrite Rt. cbn [map List.app filter SubnetRoute.routeTableId otoken_eqb].
  rewrite !token_eqb_refl.
  destruct (token_eqb_spec (Subnet.routeTableId c) (Subnet.routeTableId a));
    [congruence|].
  destruct (token_eqb_spec (Subnet.routeTableId a) (Subnet.routeTableId c));
    [congruence|].
  split; reflexivity.
Qed.

(** * The default routes of [SubnetRouting] *)

Section DefaultRoutes.

Variables (this : path) (p : string) (g : path).




End DefaultRoutes.






(** * Ordering dependencies of the routes *)




(** * Associations and propagations of the two routing stacks *)

Section HubRouting.

Variables (props : TgwRouteAttachmentProps.t) (vpn : token).
Let prefix := TgwRouteAttachmentProps.prefix props.
Let dev := TgwRouteAttachmentProps.developmentVpc props.
Let prod := TgwRouteAttachmentProps.productionVpc props.
Let cloud := Ref ["TgwRouteAttachment"; prefix ++ "-RouteTable"].
Let vpnDomain := Ref ["TgwVpnRouting"; "VPN"].
Let devAtt := ["TgwRouteAttachment"; prefix ++ "dev-vpc-tgw-attachment"].
Let prodAtt := ["TgwRouteAttachment"; prefix ++ "prod-vpc-tgw-attachment"].

Lemma hubRouting_run env :
  (List.length (Vpc.isolatedSubnets dev) <= 1)%nat ->
  (List.length (Vpc.isolatedSubnets prod) <= 1)%nat ->
  exists s,
    hubRouting props vpn env newApp = (Ok ["TgwVpnRouting"], s) /\
    attachments (tree s) = [devAtt; prodAtt] /\
    associations (tree s)
    = [ (Some (Ref devAtt), Some cloud); (Some (Ref prodAtt), Some cloud);
        (Some vpn, Some vpnDomain) ] /\
    propagations (tree s)
    = [ (Some (Ref devAtt), Some cloud); (Some (Ref prodAtt), Some cloud);
        (Some vpn, Some vpnDomain); (Some vpn, Some cloud);
        (Some (Ref devAtt), Some vpnDomain);
        (Some (Ref prodAtt), Some vpnDomain) ].
Proof.
  intros Hd Hp. unfold hubRouting.
  destruct (TgwRouteAttachment_run [] "TgwRouteAttachment" props env newApp
              eq_refl Hd Hp) as (new & R & K & At & As & Pr & _).
  erewrite bind_Ok by exact R. cbv beta zeta.
  cbn [TgwRouteAttachmentObj.stack
       TgwRouteAttachmentObj.cfnTransitGatewayRouteTable].
  match goal with
  | |- context [TgwVpnRouting ?sc ?i ?pr env ?s0] =>
      destruct (TgwVpnRouting_run sc i pr env s0) as
        (new2 & R2 & _ & At2 & As2 & Pr2 & _)
  end.
  { cbn [tree newApp List.app]. unfold freshScope. rewrite K.
    fold dev prod in Hd, Hp |- *.
    destruct (Vpc.isolatedSubnets dev) as [|a [|? ?]]; [| |simpl in Hd; lia];
      (destruct (Vpc.isolatedSubnets prod) as [|c [|? ?]];
       [| |simpl in Hp; lia]); reflexivity. }
  eexists. split; [exact R2|].
  cbn [tree newApp List.app TgwVpnRoutingProps.vpnAttachmentId
       TgwVpnRoutingProps.vpcRouteTableId TgwVpnRoutingProps.devAttachmentId
       TgwVpnRoutingProps.prodAttachmentId] in *.
  rewrite attachments_app, associations_app, propagations_app.
  rewrite At, As, Pr, At2, As2, Pr2. repeat split.
Qed.

End HubRouting.

(** C3 (as amended).  The two routing stacks declare exactly six
    propagations: the development and the production attachment into the
    cloud domain's table, the VPN attachment into the VPN domain's own table
    and into the cloud domain's, and the development and the production
    attachment into the VPN domain's. *)
Theorem propagations_declared props vpn env :
  let prefix := TgwRouteAttachmentProps.prefix props in
  let cloud := Ref ["TgwRouteAttachment"; prefix ++ "-RouteTable"] in
  let vpnDomain := Ref ["TgwVpnRouting"; "VPN"] in
  let devAtt := Ref ["TgwRouteAttachment"; prefix ++ "dev-vpc-tgw-attachment"] in
  let prodAtt := Ref ["TgwRouteAttachment"; prefix ++ "prod-vpc-tgw-attachment"] in
  (List.length (Vpc.isolatedSubnets
     (TgwRouteAttachmentProps.developmentVpc props)) <= 1)%nat ->
  (List.length (Vpc.isolatedSubnets
     (TgwRouteAttachmentProps.productionVpc props)) <= 1)%nat ->
  exists s,
    hubRouting props vpn env newApp = (Ok ["TgwVpnRouting"], s) /\
    propagations (tree s)
    = [ (Some devAtt, Some cloud); (Some prodAtt, Some cloud);
        (Some vpn, Some vpnDomain); (Some vpn, Some cloud);
        (Some devAtt, Some vpnDomain); (Some prodAtt, Some vpnDomain) ].
Proof.
  intros prefix cloud vpnDomain devAtt prodAtt Hd Hp.
  destruct (hubRouting_run props vpn env Hd Hp) as (s & R & _ & _ & Pr).
  exists s. split; [exact R | exact Pr].
Qed.

Lemma propagations_declared_witness :
  exists s,
    hubRouting (sampleRouteAttachment 1 1) sampleVpnAttachment sampleEnv newApp
    = (Ok ["TgwVpnRouting"], s) /\
    propagations (tree s)
    = [ (Some (Ref ["TgwRouteAttachment"; "Gateway-dev-vpc-tgw-attachment"]),
         Some (Ref ["TgwRouteAttachment"; "Gateway--RouteTable"]));
        (Some (Ref ["TgwRouteAttachment"; "Gateway-prod-vpc-tgw-attachment"]),
         Some (Ref ["TgwRouteAttachment"; "Gateway--RouteTable"]));
        (Some sampleVpnAttachment, Some (Ref ["TgwVpnRouting"; "VPN"]));
        (Some sampleVpnAttachment,
         Some (Ref ["TgwRouteAttachment"; "Gateway--RouteTable"]));
        (Some (Ref ["TgwRouteAttachment"; "Gateway-dev-vpc-tgw-attachment"]),
         Some (Ref ["TgwVpnRouting"; "VPN"]));
        (Some (Ref ["TgwRouteAttachment"; "Gateway-prod-vpc-tgw-attachment"]),
         Some (Ref ["TgwVpnRouting"; "VPN"])) ].
Proof.
  apply (propagations_declared (sampleRouteAttachment 1 1) sampleVpnAttachment
           sampleEnv); simpl; lia.
Defined.

(** C3, counterexample: the VPN attachment is also propagated into the VPN
    domain's own table, which is none of the five propagations of the
    claim. *)
Lemma vpn_attachment_self_propagated :
  let cloud := Ref ["TgwRouteAttachment"; "Gateway--RouteTable"] in
  let vpnDomain := Ref ["TgwVpnRouting"; "VPN"] in
  let devAtt := Ref ["TgwRouteAttachment"; "Gateway-dev-vpc-tgw-attachment"] in
  let prodAtt := Ref ["TgwRouteAttachment"; "Gateway-prod-vpc-tgw-attachment"] in
  let vpn := sampleVpnAttachment in
  exists s,
    hubRouting (sampleRouteAttachment 1 1) vpn sampleEnv newApp
    = (Ok ["TgwVpnRouting"], s) /\
    In (Some vpn, Some vpnDomain) (propagations (tree s)) /\
    ~ In (Some vpn, Some vpnDomain)
         [ (Some devAtt, Some cloud); (Some prodAtt, Some cloud);
           (Some vpn, Some cloud);
           (Some devAtt, Some vpnDomain); (Some prodAtt, Some vpnDomain) ].
Proof.
  eexists. split; [vm_compute; reflexivity|]. split.
  - vm_compute. right. right. left. reflexivity.
  - simpl. intuition discriminate.
Qed.

(** C4.  In the topology of the two routing stacks every attachment is
    associated with exactly one routing domain: development and production
    with the cloud domain, the VPN attachment with the VPN domain, which is a
    different table; the VPN attachment is not associated with the cloud
    domain's table, it is propagated into it. *)
Theorem association_unique props vpn env :
  let prefix := TgwRouteAttachmentProps.prefix props in
  let cloud := Ref ["TgwRouteAttachment"; prefix ++ "-RouteTable"] in
  let vpnDomain := Ref ["TgwVpnRouting"; "VPN"] in
  let devAtt := ["TgwRouteAttachment"; prefix ++ "dev-vpc-tgw-attachment"] in
  let prodAtt := ["TgwRouteAttachment"; prefix ++ "prod-vpc-tgw-attachment"] in
  (List.length (Vpc.isolatedSubnets
     (TgwRouteAttachmentProps.developmentVpc props)) <= 1)%nat ->
  (List.length (Vpc.isolatedSubnets
     (TgwRouteAttachmentProps.productionVpc props)) <= 1)%nat ->
  vpn <> Ref devAtt -> vpn <> Ref prodAtt ->
  exists s,
    hubRouting props vpn env newApp = (Ok ["TgwVpnRouting"], s) /\
    attachments (tree s) = [devAtt; prodAtt] /\
    associatedWith (Ref devAtt) (tree s) = [Some cloud] /\
    associatedWith (Ref prodAtt) (tree s) = [Some cloud] /\
    associatedWith vpn (tree s) = [Some vpnDomain] /\
    vpnDomain <> cloud /\
    ~ In (Some vpn, Some cloud) (associations (tree s)) /\
    In (Some vpn, Some cloud) (propagations (tree s)).
Proof.
  intros prefix cloud vpnDomain devAtt prodAtt Hd Hp Nd Np.
  destruct (hubRouting_run props vpn env Hd Hp) as (s & R & At & As & Pr).
  exists s. split; [exact R|]. split; [exact At|].
  fold prefix in As, Pr. subst cloud vpnDomain devAtt prodAtt.
  set (devAtt := ["TgwRouteAttachment"; prefix ++ "dev-vpc-tgw-attachment"]) in *.
  set (prodAtt := ["TgwRouteAttachment"; prefix ++ "prod-vpc-tgw-attachment"]) in *.
  assert (DP : path_eqb devAtt prodAtt = false).
  { subst devAtt prodAtt. cbn [path_eqb]. norm_ids. reflexivity. }
  assert (PD : path_eqb prodAtt devAtt = false).
  { subst devAtt prodAtt. cbn [path_eqb]. norm_ids. reflexivity. }
  assert (VD : token_eqb vpn (Ref devAtt) = false)
    by (destruct (token_eqb_spec vpn (Ref devAtt)); congruence).
  assert (VP : token_eqb vpn (Ref prodAtt) = false)
    by (destruct (token_eqb_spec vpn (Ref prodAtt)); congruence).
  assert (DV : token_eqb (Ref devAtt) vpn = false)
    by (destruct (token_eqb_spec (Ref devAtt) vpn); congruence).
  assert (PV : token_eqb (Ref prodAtt) vpn = false)
    by (destruct (token_eqb_spec (Ref prodAtt) vpn); congruence).
  unfold associatedWith. rewrite As, Pr.
  cbn [filter map fst snd otoken_eqb].
  rewrite !token_eqb_refl, ?VD, ?VP, ?DV, ?PV.
  cbn [token_eqb]. rewrite ?DP, ?PD. cbn [map snd].
  repeat split.
  - intros H. inversion H.
  - cbn [In]. intros [H|[H|[H|[]]]].
    + injection H as H. congruence.
    + injection H as H. congruence.
    + discriminate.
  - cbn [In]. right. right. right. left. reflexivity.
Qed.

Lemma association_unique_witness :
  exists s,
    hubRouting (sampleRouteAttachment 1 1) sampleVpnAttachment sampleEnv newApp
    = (Ok ["TgwVpnRouting"], s) /\
    attachments (tree s)
    = [ ["TgwRouteAttachment"; "Gateway-dev-vpc-tgw-attachment"];
        ["TgwRouteAttachment"; "Gateway-prod-vpc-tgw-attachment"] ] /\
    associatedWith
      (Ref ["TgwRouteAttachment"; "Gateway-dev-vpc-tgw-attachment"]) (tree s)
    = [Some (Ref ["TgwRouteAttachment"; "Gateway--RouteTable"])] /\
    associatedWith
      (Ref ["TgwRouteAttachment"; "Gateway-prod-vpc-tgw-attachment"]) (tree s)
    = [Some (Ref ["TgwRouteAttachment"; "Gateway--RouteTable"])] /\
    associatedWith sampleVpnAttachment (tree s)
    = [Some (Ref ["TgwVpnRouting"; "VPN"])] /\
    Ref ["TgwVpnRouting"; "VPN"]
    <> Ref ["TgwRouteAttachment"; "Gateway--RouteTable"] /\
    ~ In (Some sampleVpnAttachment,
          Some (Ref ["TgwRouteAttachment"; "Gateway--RouteTable"]))
         (associations (tree s)) /\
    In (Some sampleVpnAttachment,
        Some (Ref ["TgwRouteAttachment"; "Gateway--RouteTable"]))
       (propagations (tree s)).
Proof.
  apply (association_unique (sampleRouteAttachment 1 1) sampleVpnAttachment
           sampleEnv); [simpl; lia | simpl; lia | discriminate | discriminate].
Defined.

(** * The gateway stack *)

Lemma concat_Some {B} (p t : string) (k : string -> M B) env s :
  bind (concat (Some p) t) k env s = k (p ++ t) env s.
Proof. reflexivity. Qed.

Ltac step_concat := rewrite concat_Some; cbv beta.

Lemma Gateway_run scope id props p asn ip env s0 :
  GatewayProps.prefix props = Some p ->
  GatewayProps.customerSideAsn props = Some asn ->
  GatewayProps.onPremIpAddress props = Some ip ->
  freshScope (child scope id) (tree s0) = true ->
  let this := child scope id in
  let tgw := child this (p ++ "-TGW") in
  let cgw := child this (p ++ "-CGW") in
  let vpn := child this (p ++ "-VPN") in
  exists new,
    Gateway scope id props env s0
    = (Ok (GatewayObj.mk this tgw cgw vpn),
       mkState (tree s0 ++ new)%list (drawn s0)) /\
    map fst new
    = [ this; tgw; cgw; vpn; child this "transitGatewayId";
        child this "customerGatewayId"; child this "vpnConnectionId" ] /\
    map (fun pr => (fst pr, cfnType (snd pr))) (resources new)
    = [ (tgw, TransitGatewayT); (cgw, CustomerGatewayT); (vpn, VPNConnectionT) ] /\
    map (fun pr => (propTok "transitGatewayId" (snd pr),
                    propTok "customerGatewayId" (snd pr)))
        (resourcesOfType VPNConnectionT new)
    = [ (Some (Ref tgw), Some (Ref cgw)) ] /\
    map (fun pr => (propTok "defaultRouteTableAssociation" (snd pr),
                    propTok "defaultRouteTablePropagation" (snd pr)))
        (resourcesOfType TransitGatewayT new)
    = [ (Some (Lit "disable"), Some (Lit "disable")) ] /\
    attachments new = [].
Proof.
  intros Hp Ha Hi F this tgw cgw vpn.
  unfold Gateway, Stack, newStack, CfnTransitGateway, CfnCustomerGateway,
    CfnVPNConnection, CfnOutput.
  cbv zeta. rewrite Hp, Ha, Hi.
  destruct (GatewayProps.amazonSideAsn props); eexists; (split;
  [ step_new; do 2 step_concat; step_new; do 2 step_concat; step_new;
    do 2 step_concat; step_new; do 3 step_new; finish_run
  | repeat split; reflexivity ]).
Qed.

(** C7 (as amended).  The gateway stack creates the transit gateway first,
    then the customer gateway, then the VPN connection: the link goes through
    Unprovisioned, TransitGatewayCreated, CustomerGatewayCreated,
    VPNConnectionEstablished.  The VPN connection refers to both gateways,
    and both exist when it is created. *)
Theorem vpn_link_sequence scope id props p asn ip env s0 :
  GatewayProps.prefix props = Some p ->
  GatewayProps.customerSideAsn props = Some asn ->
  GatewayProps.onPremIpAddress props = Some ip ->
  freshScope (child scope id) (tree s0) = true ->
  let this := child scope id in
  let tgw := child this (p ++ "-TGW") in
  let cgw := child this (p ++ "-CGW") in
  let vpn := child this (p ++ "-VPN") in
  exists new,
    Gateway scope id props env s0
    = (Ok (GatewayObj.mk this tgw cgw vpn),
       mkState (tree s0 ++ new)%list (drawn s0)) /\
    linkTrace new
    = [ Unprovisioned; TransitGatewayCreated; CustomerGatewayCreated;
        VPNConnectionEstablished ] /\
    map (fun pr => (propTok "transitGatewayId" (snd pr),
                    propTok "customerGatewayId" (snd pr)))
        (resourcesOfType VPNConnectionT new)
    = [ (Some (Ref tgw), Some (Ref cgw)) ] /\
    createdBefore vpn new = [this; tgw; cgw].
Proof.
  intros Hp Ha Hi F this tgw cgw vpn. eexists.
  unfold Gateway, Stack, newStack, CfnTransitGateway, CfnCustomerGateway,
    CfnVPNConnection, CfnOutput.
  cbv zeta. rewrite Hp, Ha, Hi.
  split.
  - step_new. do 2 step_concat. step_new. do 2 step_concat. step_new.
    do 2 step_concat. step_new. do 3 step_new. finish_run.
  - split; [reflexivity|split; [reflexivity|]].
    subst this tgw cgw vpn. cbn [createdBefore List.app].
    norm_ids. reflexivity.
Qed.

Lemma vpn_link_sequence_witness :
  exists new,
    Gateway [] "TgwAndVpnAndCgw" sampleGateway sampleEnv newApp
    = (Ok (GatewayObj.mk ["TgwAndVpnAndCgw"] ["TgwAndVpnAndCgw"; "TGW--TGW"]
             ["TgwAndVpnAndCgw"; "TGW--CGW"] ["TgwAndVpnAndCgw"; "TGW--VPN"]),
       mkState (tree newApp ++ new)%list (drawn newApp)) /\
    linkTrace new
    = [ Unprovisioned; TransitGatewayCreated; CustomerGatewayCreated;
        VPNConnectionEstablished ] /\
    map (fun pr => (propTok "transitGatewayId" (snd pr),
                    propTok "customerGatewayId" (snd pr)))
        (resourcesOfType VPNConnectionT new)
    = [ (Some (Ref ["TgwAndVpnAndCgw"; "TGW--TGW"]),
         Some (Ref ["TgwAndVpnAndCgw"; "TGW--CGW"])) ] /\
    createdBefore ["TgwAndVpnAndCgw"; "TGW--VPN"] new
    = [ ["TgwAndVpnAndCgw"]; ["TgwAndVpnAndCgw"; "TGW--TGW"];
        ["TgwAndVpnAndCgw"; "TGW--CGW"] ].
Proof.
  exact (vpn_link_sequence [] "TgwAndVpnAndCgw" sampleGateway "TGW-" 65000%Z
           "203.0.113.10" sampleEnv newApp eq_refl eq_refl eq_refl eq_refl).
Defined.

(** C7, counterexample: the link does not go through CustomerGatewayCreated
    before TransitGatewayCreated; when the transit gateway has been created
    no customer gateway exists yet. *)
Lemma transit_gateway_created_first :
  exists o s,
    Gateway [] "TgwAndVpnAndCgw" sampleGateway sampleEnv newApp = (Ok o, s) /\
    linkTrace (tree s)
    <> [ Unprovisioned; CustomerGatewayCreated; TransitGatewayCreated;
         VPNConnectionEstablished ] /\
    createdBefore (GatewayObj.cfnCustomerGateway o) (tree s)
    = [ GatewayObj.stack o; GatewayObj.cfnTransitGateway o ].
Proof.
  do 2 eexists. split; [vm_compute; reflexivity|]. split.
  - vm_compute. discriminate.
  - vm_compute. reflexivity.
Qed.

(** * The demo program *)



(** With a complete configuration the program builds its three stacks. *)
Lemma app_succeeds :
  succeeded (TgwOnPremDemo.app sampleParams sampleEnv newApp) = true.
Proof. vm_compute. reflexivity. Qed.

(** The runs of the program, by what the configuration holds for the region
    and by the zones of the environment. *)
Ltac run_app cfnParams env :=
  destruct cfnParams as [regions ip];
  destruct env as [zones source];
  unfold TgwOnPremDemo.app, BaseNetworkStack, regionParams;
  cbn [StackProps.region Params.regions Params.OnPremPublicIp];
  destruct (lookupProp TgwOnPremDemo.REGION regions)
    as [[devCidr prodCidr onPremCidr mask amazonAsn customerAsn]|];
  [ destruct customerAsn, amazonAsn, ip, zones as [|zone zones] | ].


(** The theorem above is about a hub that exists: a complete configuration
    yields one hub and two attachments. *)
Lemma app_declares_one_hub :
  let t := tree (snd (TgwOnPremDemo.app sampleParams sampleEnv newApp)) in
  map fst (resourcesOfType TransitGatewayT t) = [sampleHub] /\
  List.length (attachments t) = 2%nat.
Proof. vm_compute. split; reflexivity. Qed.

(** And a hub left with its default association would link every attachment
    to its default table. *)
Lemma implicitLinks_when_enabled :
  let hub := (sampleHub,
              CResource (mkCfn TransitGatewayT
                           [("defaultRouteTableAssociation", VTok (Lit "enable"))]
                           [] [])) in
  let att := (["S"; "att"], CResource (mkCfn TransitGatewayAttachmentT [] [] [])) in
  implicitLinks "defaultRouteTableAssociation" [hub; att]
  = [ (["S"; "att"], sampleHub) ].
Proof. reflexivity. Qed.

(** * Determinism of the composition *)

Section UuidFree.










End UuidFree.













Section KeysDistinct.













End KeysDistinct.


















(** * Further properties of the constructors *)

(** ** Failing steps *)





(** ** The gateway stack, by the properties it is given *)



(** ** [SubnetRouting], by the properties it is given *)

(** X2.  Called without a Vpc, as with its default properties, the
    constructor throws a TypeError and leaves its own construct in the tree.
    With a Vpc that has no isolated subnet it succeeds whatever the prefix
    and the transit gateway are, absent or not, and draws no identifier.  A
    missing prefix or transit gateway is noticed only at the first isolated
    subnet: the prefix before an identifier is drawn, the transit gateway
    after. *)
Theorem SubnetRouting_absent_properties scope id props env s0 :
  freshScope (child scope id) (tree s0) = true ->
  let this := child scope id in
  let run := SubnetRouting scope id props env s0 in
  let alone := mkState (tree s0 ++ [(this, CConstruct)])%list (drawn s0) in
  match SubnetRoutingProps.vpc props with
  | None => run = (Throw (TypeError "isolatedSubnets"), alone)
  | Some v =>
      match Vpc.isolatedSubnets v with
      | [] => run = (Ok this, alone)
      | _ :: _ =>
          match SubnetRoutingProps.prefix props,
                SubnetRoutingProps.transitGateway props with
          | None, _ => run = (Throw (TypeError "concat"), alone)
          | Some _, None =>
              run = (Throw (TypeError "ref"),
                     mkState (tree alone) (S (drawn s0)))
          | Some _, Some _ => True
          end
      end
  end.
Proof.
  intros F this run alone. subst run.
  unfold SubnetRouting, newConstruct.
  erewrite bind_Ok by (apply Node_addChild_Ok; decide_path). tidy.
  destruct (SubnetRoutingProps.vpc props) as [v|]; [|reflexivity].
  cbn [deref]. rewrite bind_ret.
  destruct (Vpc.isolatedSubnets v) as [|a l]; [reflexivity|].
  cbn [forOf]. unfold SubnetRouting_body.
  destruct (SubnetRoutingProps.prefix props) as [p|],
           (SubnetRoutingProps.transitGateway props) as [g|];
    try reflexivity; exact I.
Qed.

Lemma SubnetRouting_absent_properties_witness :
  SubnetRouting [] "Routing" (SubnetRoutingProps.mk None None None)
                sampleEnv newApp
  = (Throw (TypeError "isolatedSubnets"),
     mkState [(["Routing"], CConstruct)] 0).
Proof.
  exact (SubnetRouting_absent_properties [] "Routing"
           (SubnetRoutingProps.mk None None None) sampleEnv newApp eq_refl).
Defined.

Section SubnetRoutingOutcome.

Variables (this : path) (props : SubnetRoutingProps.t) (p : string) (g : path).
Hypothesis Hprefix : SubnetRoutingProps.prefix props = Some p.
Hypothesis Htgw : SubnetRoutingProps.transitGateway props = Some g.

Let routeId (u : string) : path := child this ((p ++ u) ++ "-tgw-route").


End SubnetRoutingOutcome.



(** ** The Vpc constructs *)




Section VpcWithEc2Run.

Variables (scope : path) (id : string) (props : VpcWithEc2Props.t) (p : string).
Hypothesis Hprefix : VpcWithEc2Props.prefix props = Some p.
Let this := child scope id.
Let vpcNode := child this (p ++ "-VPC").
Let subnet :=
  vpcSubnet vpcNode
    (SubnetConfiguration.mk (VpcWithEc2Props.cidrMask props)
                            (p ++ "-VPC | ISOLATED") PRIVATE_ISOLATED).


End VpcWithEc2Run.



Section SimulatedOnPremRun.

Variables (scope : path) (id : string) (props : SimulatedOnPremProps.t)
  (p : string).
Hypothesis Hprefix : SimulatedOnPremProps.prefix props = Some p.
Let this := child scope id.
Let eip := child this "onPremEip".
Let vpcNode := child this (p ++ "-VPC").
Let subnet :=
  vpcSubnet vpcNode
    (SubnetConfiguration.mk (SimulatedOnPremProps.cidrMask props)
                            (p ++ "-VPC | Public") PUBLIC).


End SimulatedOnPremRun.





(** ** Constructors only append *)

Section OnlyAppends.

Lemma appends_ret {A} (a : A) : onlyAppends (ret a).
Proof. intros env s. exists []. cbn. now rewrite app_nil_r. Qed.

Lemma appends_throw {A} e : onlyAppends (@throw A e).
Proof. intros env s. exists []. cbn. now rewrite app_nil_r. Qed.

Lemma appends_bind {A B} (m : M A) (k : A -> M B) :
  onlyAppends m -> (forall a, onlyAppends (k a)) -> onlyAppends (bind m k).
Proof.
  intros Hm Hk env s. unfold bind.
  destruct (Hm env s) as (n1 & T1 & D1).
  destruct (m env s) as [[a|e] s']; cbn [snd] in *.
  - destruct (Hk a env s') as (n2 & T2 & D2).
    exists (n1 ++ n2)%list. rewrite T2, T1, app_assoc. split; [reflexivity|lia].
  - exists n1. split; assumption.
Qed.

Lemma appends_forOf {A} (l : list A) (body : A -> M unit) :
  (forall a, onlyAppends (body a)) -> onlyAppends (forOf l body).
Proof.
  intros H. induction l as [|x l IH]; cbn [forOf].
  - apply appends_ret.
  - apply appends_bind; [apply H | intros _; exact IH].
Qed.

Lemma appends_deref {A} what (x : option A) : onlyAppends (deref what x).
Proof. destruct x; [apply appends_ret | apply appends_throw]. Qed.

Lemma appends_Node_addChild scope id c : onlyAppends (Node_addChild scope id c).
Proof.
  intros env s. unfold Node_addChild.
  destruct (has_path (child scope id) (tree s)).
  - exists []. cbn. now rewrite app_nil_r.
  - eexists. cbn. split; [reflexivity|lia].
Qed.

Lemma appends_uuidv4 : onlyAppends uuidv4.
Proof.
  intros env s. exists []. cbn. rewrite app_nil_r. split; [reflexivity|lia].
Qed.

Lemma appends_zones : onlyAppends stackAvailabilityZones.
Proof. intros env s. exists []. cbn. now rewrite app_nil_r. Qed.

Lemma required_state res props required env s :
  snd (forOf required (requireProperty res props) env s) = s.
Proof.
  induction required as [|n l IH]; [reflexivity|].
  cbn [forOf]. unfold bind, requireProperty at 1.
  destruct (lookupProp n props) as [[v|]|]; cbn; auto.
Qed.

Lemma appends_newCfnResource scope id ty props tags required :
  onlyAppends (newCfnResource scope id ty props tags required).
Proof.
  unfold newCfnResource.
  apply appends_bind; [apply appends_Node_addChild|]. intros this.
  apply appends_bind; [|intros; apply appends_ret].
  intros env s. exists []. rewrite required_state, app_nil_r. split; lia || auto.
Qed.

Lemma newCfnResource_registered scope id ty props tags required env s :
  has_path (child scope id) (tree s) = false ->
  let s' := mkState (tree s ++ [(child scope id,
                       CResource (mkCfn ty (definedProps props) tags []))])%list
                    (drawn s) in
  newCfnResource scope id ty props tags required env s = (Ok (child scope id), s')
  \/ exists e, newCfnResource scope id ty props tags required env s = (Throw e, s').
Proof.
  intros F s'. unfold newCfnResource.
  erewrite bind_Ok by (apply Node_addChild_Ok; exact F). fold s'.
  unfold bind.
  pose proof (required_state (child scope id) props required env s') as St.
  destruct (forOf required (requireProperty (child scope id) props) env s')
    as [[[]|e] s''] eqn:Rq; cbn [snd] in St; subst s''.
  - left. reflexivity.
  - right. exists e. reflexivity.
Qed.

(** [addDependsOn] rewrites a construct of the tree; applied to the resource
    just created it rewrites that one only. *)
Lemma appends_new_dep scope id ty props tags required target :
  onlyAppends (bind (newCfnResource scope id ty props tags required)
                    (fun r => addDependsOn r target)).
Proof.
  intros env s.
  destruct (has_path (child scope id) (tree s)) eqn:E.
  - rewrite newCfnResource_dep_Throw by exact E.
    exists []. cbn. now rewrite app_nil_r.
  - destruct (newCfnResource_registered scope id ty props tags required env s E)
      as [R|[e R]].
    + erewrite bind_Ok by exact R. rewrite addDependsOn_Ok.
      cbn [snd tree drawn]. rewrite map_app, (addDep_absent _ _ _ E).
      eexists. split; [reflexivity|lia].
    + erewrite bind_Throw by exact R. eexists. cbn [snd tree drawn].
      split; [reflexivity|lia].
Qed.

End OnlyAppends.

Ltac only_appends :=
  cbv zeta;
  repeat first
    [ apply appends_new_dep
    | apply appends_newCfnResource
    | apply appends_ret
    | apply appends_throw
    | apply appends_deref
    | apply appends_Node_addChild
    | apply appends_uuidv4
    | apply appends_zones
    | apply appends_forOf; intros ?
    | apply appends_bind; [|intros ?] ].

Lemma appends_concat s t : onlyAppends (concat s t).
Proof. unfold concat. only_appends. Qed.

Lemma appends_newVpc scope id vpcName cidr maxAzs cfgs :
  onlyAppends (newVpc scope id vpcName cidr maxAzs cfgs).
Proof. unfold newVpc, newL2. only_appends. Qed.

Ltac only_appends_program :=
  cbv zeta;
  repeat first
    [ apply appends_new_dep
    | apply appends_newCfnResource
    | apply appends_concat
    | apply appends_newVpc
    | apply appends_ret
    | apply appends_throw
    | apply appends_deref
    | apply appends_Node_addChild
    | apply appends_uuidv4
    | apply appends_forOf; intros ?
    | apply appends_bind; [|intros ?] ].










(** ** The routing stacks *)

(** X8.  Whatever the numbers of subnets, and whether the route loops then
    succeed or throw, [TgwRouteAttachment] in a fresh scope leaves in the
    tree a route table of the given transit gateway and, for each of the two
    Vpcs, an attachment to that transit gateway that carries the Vpc's
    identifier and the identifiers of all its isolated subnets. *)
Theorem TgwRouteAttachment_attachments scope id props env s0 :
  freshScope (child scope id) (tree s0) = true ->
  let this := child scope id in
  let prefix := TgwRouteAttachmentProps.prefix props in
  let tgw := TgwRouteAttachmentProps.transitGateway props in
  let attachment (name : string) (vpc : Vpc.t) : path * construct :=
    (child this (prefix ++ name),
     CResource
       (mkCfn TransitGatewayAttachmentT
          [ ("transitGatewayId", VTok (Ref tgw));
            ("vpcId", VTok (Vpc.vpcId vpc));
            ("subnetIds",
             VToks (map Subnet.subnetId (Vpc.isolatedSubnets vpc))) ]
          [ ("Name", prefix ++ name) ] [])) in
  let wiring :=
    [ (this, CStack (StackProps.description
                       (TgwRouteAttachmentProps.stackProps props))
                    (StackProps.region
                       (TgwRouteAttachmentProps.stackProps props)));
      (child this (prefix ++ "-RouteTable"),
       CResource
         (mkCfn TransitGatewayRouteTableT
            [ ("transitGatewayId", VTok (Ref tgw)) ]
            [ ("Name", prefix ++ "-RouteTable") ] []));
      attachment "dev-vpc-tgw-attachment"
        (TgwRouteAttachmentProps.developmentVpc props);
      attachment "prod-vpc-tgw-attachment"
        (TgwRouteAttachmentProps.productionVpc props) ] in
  exists rest,
    tree (snd (TgwRouteAttachment scope id props env s0))
    = (tree s0 ++ wiring ++ rest)%list.
Proof.
  intros F this prefix tgw attachment wiring.
  unfold_RouteAttachment. cbv zeta. do 4 step_new.
  match goal with
  | |- context [snd (?m env ?s)] =>
      assert (OA : onlyAppends m) by only_appends_program;
      destruct (OA env s) as (rest & T & _)
  end.
  exists rest. rewrite T. cbn [tree]. rewrite <- !app_assoc. reflexivity.
Qed.

Lemma TgwRouteAttachment_attachments_witness :
  exists rest,
    tree (snd (TgwRouteAttachment [] "TgwRouteAttachment"
                 (sampleRouteAttachment 2 0) sampleEnv newApp))
    = ([ (["TgwRouteAttachment"], CStack None (Some TgwOnPremDemo.REGION));
         (["TgwRouteAttachment"; "Gateway--RouteTable"],
          CResource
            (mkCfn TransitGatewayRouteTableT
               [ ("transitGatewayId", VTok (Ref sampleHub)) ]
               [ ("Name", "Gateway--RouteTable") ] []));
         (["TgwRouteAttachment"; "Gateway-dev-vpc-tgw-attachment"],
          CResource
            (mkCfn TransitGatewayAttachmentT
               [ ("transitGatewayId", VTok (Ref sampleHub));
                 ("vpcId", VTok (Vpc.vpcId (sampleVpc "Development" 2)));
                 ("subnetIds",
                  VToks (map Subnet.subnetId
                           (Vpc.isolatedSubnets (sampleVpc "Development" 2)))) ]
               [ ("Name", "Gateway-dev-vpc-tgw-attachment") ] []));
         (["TgwRouteAttachment"; "Gateway-prod-vpc-tgw-attachment"],
          CResource
            (mkCfn TransitGatewayAttachmentT
               [ ("transitGatewayId", VTok (Ref sampleHub));
                 ("vpcId", VTok (Vpc.vpcId (sampleVpc "Production" 0)));
                 ("subnetIds", VToks []) ]
               [ ("Name", "Gateway-prod-vpc-tgw-attachment") ] [])) ]
       ++ rest)%list.
Proof.
  exact (TgwRouteAttachment_attachments [] "TgwRouteAttachment"
           (sampleRouteAttachment 2 0) sampleEnv newApp eq_refl).
Defined.

(** X9.  In a [TgwRouteAttachment] that is built, every subnet route, on the
    development side and on the production side alike, declares one
    dependency, on the development attachment; none depends on the
    production attachment. *)
Theorem routes_depend_on_development_attachment scope id props env s0 :
  let this := child scope id in
  let prefix := TgwRouteAttachmentProps.prefix props in
  let dev := Vpc.isolatedSubnets (TgwRouteAttachmentProps.developmentVpc props) in
  let prod := Vpc.isolatedSubnets (TgwRouteAttachmentProps.productionVpc props) in
  let devAtt := child this (prefix ++ "dev-vpc-tgw-attachment") in
  let prodAtt := child this (prefix ++ "prod-vpc-tgw-attachment") in
  freshScope this (tree s0) = true ->
  (List.length dev <= 1)%nat -> (List.length prod <= 1)%nat ->
  exists obj new,
    TgwRouteAttachment scope id props env s0
    = (Ok obj, mkState (tree s0 ++ new)%list (drawn s0)) /\
    map SubnetRoute.routeTableId (subnetRoutes new)
    = map (fun subnet => Some (Subnet.routeTableId subnet)) (dev ++ prod)%list /\
    Forall (fun r => SubnetRoute.dependsOn r = [devAtt]) (subnetRoutes new) /\
    Forall (fun r => ~ In prodAtt (SubnetRoute.dependsOn r)) (subnetRoutes new).
Proof.
  intros this prefix dev prod devAtt prodAtt F Hd Hp.
  destruct (TgwRouteAttachment_run scope id props env s0 F Hd Hp)
    as (new & R & _ & _ & _ & _ & Rt).
  eexists. exists new. split; [exact R|]. rewrite Rt. fold dev prod.
  assert (N : prodAtt <> devAtt).
  { intros E. apply (f_equal (fun q => path_eqb q devAtt)) in E.
    subst prodAtt devAtt. rewrite path_eqb_refl in E. revert E.
    norm_ids. discriminate. }
  split; [|split].
  - rewrite !map_app, !map_map. reflexivity.
  - apply Forall_app. split; apply Forall_forall; intros r Hr;
      apply in_map_iff in Hr as (x & <- & _); reflexivity.
  - apply Forall_app. split; apply Forall_forall; intros r Hr;
      apply in_map_iff in Hr as (x & <- & _); cbn;
      intros [E|[]]; apply N; now symmetry.
Qed.

Lemma routes_depend_on_development_attachment_witness :
  exists obj new,
    TgwRouteAttachment [] "TgwRouteAttachment" (sampleRouteAttachment 1 1)
      sampleEnv newApp
    = (Ok obj, mkState (tree newApp ++ new)%list (drawn newApp)) /\
    map SubnetRoute.routeTableId (subnetRoutes new)
    = map (fun subnet => Some (Subnet.routeTableId subnet))
          (Vpc.isolatedSubnets (sampleVpc "Development" 1)
           ++ Vpc.isolatedSubnets (sampleVpc "Production" 1))%list /\
    Forall (fun r => SubnetRoute.dependsOn r
                     = [ ["TgwRouteAttachment"; "Gateway-dev-vpc-tgw-attachment"] ])
           (subnetRoutes new) /\
    Forall (fun r => ~ In ["TgwRouteAttachment"; "Gateway-prod-vpc-tgw-attachment"]
                          (SubnetRoute.dependsOn r))
           (subnetRoutes new).
Proof.
  apply (routes_depend_on_development_attachment [] "TgwRouteAttachment"
           (sampleRouteAttachment 1 1) sampleEnv newApp eq_refl);
    simpl; lia.
Defined.

(** X10.  [TgwVpnRouting] in a fresh scope is built whatever identifiers it
    is given: it declares no attachment and no subnet route, one route
    table, one association and four propagations.  It does not compare the
    identifiers: given the same identifier for the development attachment
    and for the VPN attachment it declares the same propagation twice. *)
Theorem TgwVpnRouting_builds scope id props env s0 :
  freshScope (child scope id) (tree s0) = true ->
  let this := child scope id in
  let vpnRTB := Ref (child this "VPN") in
  exists new,
    TgwVpnRouting scope id props env s0
    = (Ok this, mkState (tree s0 ++ new)%list (drawn s0)) /\
    List.length new = 7%nat /\
    attachments new = [] /\ subnetRoutes new = [] /\
    associations new
    = [ (Some (TgwVpnRoutingProps.vpnAttachmentId props), Some vpnRTB) ] /\
    List.length (propagations new) = 4%nat /\
    (TgwVpnRoutingProps.devAttachmentId props
     = TgwVpnRoutingProps.vpnAttachmentId props ->
     ~ NoDup (propagations new)).
Proof.
  intros F this vpnRTB.
  destruct (TgwVpnRouting_run scope id props env s0 F)
    as (new & R & K & At & As & Pr & Rt).
  exists new. split; [exact R|]. split.
  { rewrite <- (length_map fst), K. reflexivity. }
  split; [exact At|]. split; [exact Rt|]. split; [exact As|].
  rewrite Pr. split; [reflexivity|].
  intros E ND. rewrite E in ND.
  inversion ND as [|? ? Hn _]; subst. apply Hn. right. left. reflexivity.
Qed.

Lemma TgwVpnRouting_builds_witness :
  exists new,
    TgwVpnRouting [] "TgwVpnRouting"
      (TgwVpnRoutingProps.mk sampleHub (Lit "rtb") sampleVpnAttachment
         (Lit "prod") sampleVpnAttachment (StackProps.mk None None))
      sampleEnv newApp
    = (Ok ["TgwVpnRouting"], mkState (tree newApp ++ new)%list 0) /\
    ~ NoDup (propagations new).
Proof.
  destruct (TgwVpnRouting_builds [] "TgwVpnRouting"
              (TgwVpnRoutingProps.mk sampleHub (Lit "rtb") sampleVpnAttachment
                 (Lit "prod") sampleVpnAttachment (StackProps.mk None None))
              sampleEnv newApp eq_refl)
    as (new & R & _ & _ & _ & _ & _ & D).
  exists new. split; [exact R | exact (D eq_refl)].
Defined.

(** X11.  A gateway stack that is built exports the three resources it
    created under the names "TransitGatewayId", "CustomerGatewayId" and
    "VPNConnectionId", each resource is tagged with the name it has in the
    stack, and the customer gateway carries the configured ASN and
    address. *)
Theorem Gateway_exports scope id props p asn ip env s0 :
  GatewayProps.prefix props = Some p ->
  GatewayProps.customerSideAsn props = Some asn ->
  GatewayProps.onPremIpAddress props = Some ip ->
  freshScope (child scope id) (tree s0) = true ->
  let this := child scope id in
  let tgw := child this (p ++ "-TGW") in
  let cgw := child this (p ++ "-CGW") in
  let vpn := child this (p ++ "-VPN") in
  exists new,
    Gateway scope id props env s0
    = (Ok (GatewayObj.mk this tgw cgw vpn),
       mkState (tree s0 ++ new)%list (drawn s0)) /\
    exports new
    = [ ("TransitGatewayId", Ref tgw); ("CustomerGatewayId", Ref cgw);
        ("VPNConnectionId", Ref vpn) ] /\
    map (fun pr => (fst pr, cfnTags (snd pr))) (resources new)
    = [ (tgw, [("Name", p ++ "-TGW")]); (cgw, [("Name", p ++ "-CGW")]);
        (vpn, [("Name", p ++ "-VPN")]) ] /\
    map (fun pr => cfnProperties (snd pr)) (resourcesOfType CustomerGatewayT new)
    = [ [ ("bgpAsn", VNum asn); ("ipAddress", VTok (Lit ip));
          ("type", VTok (Lit "ipsec.1")) ] ].
Proof.
  intros Hp Ha Hi F this tgw cgw vpn. eexists.
  unfold Gateway, Stack, newStack, CfnTransitGateway, CfnCustomerGateway,
    CfnVPNConnection, CfnOutput.
  cbv zeta. rewrite Hp, Ha, Hi.
  split.
  - step_new. do 2 step_concat. step_new. do 2 step_concat. step_new.
    do 2 step_concat. step_new. do 3 step_new. finish_run.
  - repeat split; reflexivity.
Qed.

Lemma Gateway_exports_witness :
  exists new,
    Gateway [] "TgwAndVpnAndCgw" sampleGateway sampleEnv newApp
    = (Ok (GatewayObj.mk ["TgwAndVpnAndCgw"] ["TgwAndVpnAndCgw"; "TGW--TGW"]
             ["TgwAndVpnAndCgw"; "TGW--CGW"] ["TgwAndVpnAndCgw"; "TGW--VPN"]),
       mkState (tree newApp ++ new)%list (drawn newApp)) /\
    exports new
    = [ ("TransitGatewayId", Ref ["TgwAndVpnAndCgw"; "TGW--TGW"]);
        ("CustomerGatewayId", Ref ["TgwAndVpnAndCgw"; "TGW--CGW"]);
        ("VPNConnectionId", Ref ["TgwAndVpnAndCgw"; "TGW--VPN"]) ].
Proof.
  destruct (Gateway_exports [] "TgwAndVpnAndCgw" sampleGateway "TGW-" 65000%Z
              "203.0.113.10" sampleEnv newApp eq_refl eq_refl eq_refl eq_refl)
    as (new & R & E & _).
  exists new. split; [exact R | exact E].
Defined.

(** ** The demo program, by its configuration *)


(** X13.  In the tree of the program, for every configuration and
    environment and at every outcome, each [transitGatewayId] refers to the
    transit gateway of the gateway stack, which is the only transit gateway
    declared: the VPN connection, the route table, the attachments and the
    subnet routes all hang on the one hub. *)
Theorem app_single_hub cfnParams env :
  let run := TgwOnPremDemo.app cfnParams env newApp in
  let t := tree (snd run) in
  let hub := ["TgwAndVpnAndCgw"; "TGW--TGW"] in
  Forall (fun x => x = Ref hub) (transitGatewayIds t) /\
  incl (map fst (resourcesOfType TransitGatewayT t)) [hub] /\
  (succeeded run = true ->
   map fst (resourcesOfType TransitGatewayT t) = [hub] /\
   List.length (transitGatewayIds t)
   = (4 + 2 * Nat.min 1 (List.length (availabilityZones env)))%nat).
Proof.
  run_app cfnParams env; vm_compute;
    (split; [repeat constructor|]);
    (split; [intros x H; exact H || destruct H|]);
    intros H; first [discriminate H | split; reflexivity].
Qed.

(** X14.  The names under which the program exports values are pairwise
    distinct, for every configuration and environment and at every outcome;
    a built program exports six values: the identifiers of the development
    and production Vpcs, the allocation id of the elastic IP, and the
    identifiers of the transit gateway, the customer gateway and the VPN
    connection. *)
Theorem app_exports cfnParams env :
  let run := TgwOnPremDemo.app cfnParams env newApp in
  let t := tree (snd run) in
  NoDup (map fst (exports t)) /\
  (succeeded run = true ->
   exports t
   = [ ("DevelopmentVPCId",
        Ref ["AwsBaseNetwork"; "Development"; "Development-VPC"; "Resource"]);
       ("ProductionVPCId",
        Ref ["AwsBaseNetwork"; "Production"; "Production-VPC"; "Resource"]);
       ("eipAllocationId",
        GetAtt ["AwsBaseNetwork"; "OnPrem"; "onPremEip"] "AllocationId");
       ("TransitGatewayId", Ref ["TgwAndVpnAndCgw"; "TGW--TGW"]);
       ("CustomerGatewayId", Ref ["TgwAndVpnAndCgw"; "TGW--CGW"]);
       ("VPNConnectionId", Ref ["TgwAndVpnAndCgw"; "TGW--VPN"]) ]).
Proof.
  run_app cfnParams env; vm_compute;
    (split; [repeat constructor; simpl; intuition discriminate|]);
    intros H; first [discriminate H | reflexivity].
Qed.

(** X15.  In a built program every isolated subnet of the development Vpc
    has exactly one route, to the production Vpc's CIDR block through the
    transit gateway of the gateway stack, and every isolated subnet of the
    production Vpc has exactly one route, to the development Vpc's CIDR
    block through the same transit gateway: the Vpcs of the program have at
    most one subnet each, so the fixed route identifiers never clash. *)
Theorem app_peer_routes cfnParams env o s :
  TgwOnPremDemo.app cfnParams env newApp = (Ok o, s) ->
  let base := TgwOnPremDemo.AppObj.baseNetwork o in
  let dev := VpcWithEc2Obj.vpc (BaseNetworkStackObj.developmentVpc base) in
  let prod := VpcWithEc2Obj.vpc (BaseNetworkStackObj.productionVpc base) in
  let hub := Ref (GatewayObj.cfnTransitGateway (TgwOnPremDemo.AppObj.gateway o)) in
  let routesOf (subnet : Subnet.t) :=
    map (fun r => (SubnetRoute.destinationCidrBlock r,
                   SubnetRoute.transitGatewayId r))
        (routesIn (Subnet.routeTableId subnet) (tree s)) in
  map routesOf (Vpc.isolatedSubnets dev)
  = map (fun _ => [ (Some (Vpc.vpcCidrBlock prod), Some hub) ])
        (Vpc.isolatedSubnets dev) /\
  map routesOf (Vpc.isolatedSubnets prod)
  = map (fun _ => [ (Some (Vpc.vpcCidrBlock dev), Some hub) ])
        (Vpc.isolatedSubnets prod) /\
  List.length (Vpc.isolatedSubnets dev)
  = Nat.min 1 (List.length (availabilityZones env)) /\
  List.length (Vpc.isolatedSubnets prod)
  = Nat.min 1 (List.length (availabilityZones env)).
Proof.
  revert o s. run_app cfnParams env; intros obj final H; vm_compute in H;
    first [ discriminate H
          | injection H as <- <-; vm_compute; repeat split; reflexivity ].
Qed.

Lemma app_peer_routes_witness :
  exists o s,
    TgwOnPremDemo.app sampleParams sampleEnv newApp = (Ok o, s) /\
    map (fun subnet =>
           map (fun r => (SubnetRoute.destinationCidrBlock r,
                          SubnetRoute.transitGatewayId r))
               (routesIn (Subnet.routeTableId subnet) (tree s)))
        (Vpc.isolatedSubnets
           (VpcWithEc2Obj.vpc
              (BaseNetworkStackObj.developmentVpc
                 (TgwOnPremDemo.AppObj.baseNetwork o))))
    = [ [ (Some (GetAtt ["AwsBaseNetwork"; "Production"; "Production-VPC";
                         "Resource"] "CidrBlock"),
           Some (Ref ["TgwAndVpnAndCgw"; "TGW--TGW"])) ] ].
Proof.
  do 2 eexists. split; [vm_compute; reflexivity|].
  exact (proj1 (app_peer_routes sampleParams sampleEnv _ _
                  ltac:(vm_compute; reflexivity))).
Defined.

